(** * driven-micro: the dispatch core, embedded and verified

    A shallow embedding of the command/event dispatch core of the
    framework: the aggregate event buffer ([IDomain]), the Unit of Work
    ([IUnitOfWork]), the handler template ([IHandler]) and the bus
    ([MessageBus]).

    Asynchronous methods are run to completion one after the other (the
    code awaits every call but one, see [update]); a rejected promise that
    is awaited is a throw.  Mutable fields are threaded as explicit state,
    [console.error] lines and calls into the injected collaborators
    (repository session, commit and rollback hooks) are recorded in a
    write-only trace. *)

From stdpp Require Import base option list gmap strings.
From Stdlib Require Import Lia.

Open Scope string_scope.
Open Scope list_scope.

(** ** Values *)

(** Aggregates are objects compared by identity: a reference. *)
Definition DomainRef := nat.

(** The message hierarchy: [ICommand] and [IEvent] are the two subclasses
    of [IMessage] the bus tests with [instanceof]; [name] is the concrete
    class name ([constructor.name]).  An [IEvent] carries the aggregate
    that produced it and an optional error string. *)
Inductive Message : Type :=
| Command (name : string) (external_job_id : string)
| Event (name : string) (domain : DomainRef) (error : option string)
| Plain (name : string).

Definition constructor_name (m : Message) : string :=
  match m with
  | Command n _ => n
  | Event n _ _ => n
  | Plain n => n
  end.

(** A thrown JavaScript value: an [Error] object, or anything else, of
    which the code only observes its truthiness and [String(v)]. *)
Inductive JsValue : Type :=
| JsError (name : string) (message : string)
| JsOther (truthy : bool) (text : string).

(** [if (error)] *)
Definition is_truthy (v : JsValue) : bool :=
  match v with
  | JsError _ _ => true
  | JsOther b _ => b
  end.

(** [error instanceof Error ? error.message : String(error)] *)
Definition error_text (v : JsValue) : string :=
  match v with
  | JsError _ msg => msg
  | JsOther _ s => s
  end.

(** What the outside world sees, in order. *)
Inductive Obs : Type :=
| ObsSetDbSession
| ObsCloseDbSession
| ObsRepoAdd (d : DomainRef)
| ObsRepoGet (id : string) (batchIdentifier : option string)
| ObsRepoUpdate (d : DomainRef)
| ObsCommit
| ObsRollback
| ObsLogException (e : JsValue)
| ObsLogError (handler : string) (text : string).

Definition is_set (o : Obs) : bool :=
  match o with ObsSetDbSession => true | _ => false end.
Definition is_close (o : Obs) : bool :=
  match o with ObsCloseDbSession => true | _ => false end.
Definition is_rollback (o : Obs) : bool :=
  match o with ObsRollback => true | _ => false end.
Definition is_log (o : Obs) : bool :=
  match o with ObsLogException _ | ObsLogError _ _ => true | _ => false end.

(** Number of trace entries satisfying [p]. *)
Definition tally (p : Obs → bool) (t : list Obs) : nat :=
  length (List.filter p t).

(** ** Computations: state, exceptions and a trace *)

Inductive Outcome (A : Type) : Type :=
| Ok (a : A)
| Throw (v : JsValue).
Arguments Ok {A} a.
Arguments Throw {A} v.

Definition is_ok {A} (o : Outcome A) : bool :=
  match o with Ok _ => true | Throw _ => false end.

Definition M (S A : Type) : Type := S → Outcome A * S * list Obs.

Definition result_of {A S} (x : Outcome A * S * list Obs) : Outcome A := x.1.1.
Definition state_of {A S} (x : Outcome A * S * list Obs) : S := x.1.2.
Definition trace_of {A S} (x : Outcome A * S * list Obs) : list Obs := x.2.

Definition ret {S A} (a : A) : M S A := λ s, (Ok a, s, []).

Definition bind {S A B} (c : M S A) (k : A → M S B) : M S B :=
  λ s,
    match c s with
    | (Ok a, s1, t1) =>
        match k a s1 with
        | (r, s2, t2) => (r, s2, t1 ++ t2)
        end
    | (Throw v, s1, t1) => (Throw v, s1, t1)
    end.

Declare Scope js_scope.
Delimit Scope js_scope with js.
Notation "x <- c ;; k" := (bind c (λ x, k))
  (at level 20, c at level 99, k at level 200) : js_scope.
Notation "c ;; k" := (bind c (λ _, k))
  (at level 100, k at level 200, right associativity) : js_scope.
Open Scope js_scope.

Definition throw {S A} (v : JsValue) : M S A := λ s, (Throw v, s, []).
Definition emit {S} (o : Obs) : M S unit := λ s, (Ok (), s, [o]).
Definition gets {S A} (f : S → A) : M S A := λ s, (Ok (f s), s, []).
Definition modify {S} (f : S → S) : M S unit := λ s, (Ok (), f s, []).

(** [try { body } catch (error) { handler }] *)
Definition try_catch {S A} (body : M S A) (handler : JsValue → M S A) : M S A :=
  λ s,
    match body s with
    | (Ok a, s1, t1) => (Ok a, s1, t1)
    | (Throw v, s1, t1) =>
        match handler v s1 with
        | (r, s2, t2) => (r, s2, t1 ++ t2)
        end
    end.

(** [try { body } finally { finalizer }]: the finalizer always runs; its
    own throw replaces the pending completion. *)
Definition try_finally {S A} (body : M S A) (finalizer : M S unit) : M S A :=
  λ s,
    match body s with
    | (r, s1, t1) =>
        match finalizer s1 with
        | (Ok _, s2, t2) => (r, s2, t1 ++ t2)
        | (Throw v, s2, t2) => (Throw v, s2, t1 ++ t2)
        end
    end.

(** [try { body } catch (error) { handler } finally { finalizer }] *)
Definition try_catch_finally {S A}
    (body : M S A) (handler : JsValue → M S A) (finalizer : M S unit) : M S A :=
  try_finally (try_catch body handler) finalizer.

(** The result of calling a method that returns a promise: the call
    itself may throw, or it hands back a promise that is fulfilled or
    rejected. *)
Inductive Call (A : Type) : Type :=
| SyncThrow (v : JsValue)
| Promise (settled : Outcome A).
Arguments SyncThrow {A} v.
Arguments Promise {A} settled.

(** [await f(...)] *)
Definition awaited {A} (c : Call A) : Outcome A :=
  match c with
  | SyncThrow v => Throw v
  | Promise o => o
  end.

(** [f(...)] with the promise dropped: only a synchronous throw is seen. *)
Definition not_awaited {A} (c : Call A) : Outcome unit :=
  match c with
  | SyncThrow v => Throw v
  | Promise _ => Ok ()
  end.

(** ** Aggregates ([IDomain]) and what the repository owns *)

(** The repository's [seen] set (a JavaScript [Set]: iterated in insertion
    order) and the pending-event buffer [_events] of every aggregate
    object. *)
Record Store : Type := {
  seen : list DomainRef;
  buffers : gmap DomainRef (list Message);
}.

Module IDomain.

(** [get events()]: the aggregate's own buffer, not a copy. *)
Definition events (d : DomainRef) (σ : Store) : list Message :=
  default [] (buffers σ !! d).

Definition set_events (d : DomainRef) (b : list Message) (σ : Store) : Store :=
  {| seen := seen σ; buffers := alter (λ _, b) d (buffers σ) |}.

(** [addEvent(event)]: [this._events.push(event)] *)
Definition addEvent (d : DomainRef) (event : Message) (σ : Store) : Store :=
  set_events d (events d σ ++ [event]) σ.

(** [clearEvents()]: [this._events = []] *)
Definition clearEvents (d : DomainRef) (σ : Store) : Store :=
  set_events d [] σ.

End IDomain.

(** ** The Unit of Work ([IUnitOfWork]) *)

(** What a concrete Unit of Work and its repository supply: whether the
    subclass attached a repository ([_repo]), the repository's [add],
    [get] and [update], and the [_commit] and [_rollback] hooks.  They act
    on the store and cannot reach the private [_events] list. *)
Record UnitOfWorkClass : Type := {
  has_repo : bool;
  repo_add : DomainRef → Store → Call unit * Store;
  repo_get : string → option string → Store → Call (option DomainRef) * Store;
  repo_update : DomainRef → Store → Call unit * Store;
  _commit : Store → Outcome unit * Store;
  _rollback : Store → Outcome unit * Store;
}.

(** The mutable part of a Unit of Work: [_events] and the store behind
    [_repo]. *)
Record UnitOfWork : Type := {
  _events : list Message;
  store : Store;
}.

Module IUnitOfWork.

Definition type_error : JsValue :=
  JsError "TypeError" "Cannot read properties of undefined".

(** A member access on [this._repo]. *)
Definition with_repo {A} (K : UnitOfWorkClass) (c : M UnitOfWork A) : M UnitOfWork A :=
  if has_repo K then c else throw type_error.

(** Call into the subclass or the repository: the call is recorded, the
    callee acts on the store. *)
Definition invoke {R} (o : Obs) (f : Store → R * Store) : M UnitOfWork R :=
  λ u,
    match f (store u) with
    | (r, σ) => (Ok r, {| _events := _events u; store := σ |}, [o])
    end.

Definition settle {A} (o : Outcome A) : M UnitOfWork A := λ u, (o, u, []).

(** [async enter()] *)
Definition enter (K : UnitOfWorkClass) : M UnitOfWork unit :=
  with_repo K (emit ObsSetDbSession).

Definition _logException (error : JsValue) : M UnitOfWork unit :=
  emit (ObsLogException error).

(** [async exit(error?)] *)
Definition exit (K : UnitOfWorkClass) (error : option JsValue) : M UnitOfWork unit :=
  match error with
  | Some e =>
      if is_truthy e
      then _logException e ;; r <- invoke ObsRollback (_rollback K) ;; settle r
      else ret ()
  | None => ret ()
  end ;;
  with_repo K (emit ObsCloseDbSession).

(** [async commit()] *)
Definition commit (K : UnitOfWorkClass) : M UnitOfWork unit :=
  r <- invoke ObsCommit (_commit K) ;; settle r.

(** [while (domain.events.length > 0) { const event = domain.events.shift();
    if (event) this._events.push(event); }] on the buffer and [_events];
    an event is an object, hence truthy. *)
Fixpoint drain (buffer acc : list Message) : list Message * list Message :=
  match buffer with
  | [] => ([], acc)
  | event :: rest => drain rest (acc ++ [event])
  end.

Definition drain_domain (u : UnitOfWork) (domain : DomainRef) : UnitOfWork :=
  match drain (IDomain.events domain (store u)) (_events u) with
  | (rest, acc) => {| _events := acc; store := IDomain.set_events domain rest (store u) |}
  end.

(** [for (const domain of this._repo.seen) ...] *)
Definition drain_seen (u : UnitOfWork) : UnitOfWork :=
  foldl drain_domain u (seen (store u)).

(** [collectNewEvents()]; [_repo] is an [IDomainRepo], which has [seen],
    so the test ['seen' in this._repo] holds. *)
Definition collectNewEvents (K : UnitOfWorkClass) : M UnitOfWork (list Message) :=
  if has_repo K
  then modify drain_seen ;; gets _events
  else throw (JsError "Error" "Repository not initialized").

(** [async add(domain)] *)
Definition add (K : UnitOfWorkClass) (domain : DomainRef) : M UnitOfWork unit :=
  enter K ;;
  try_catch_finally
    (p <- with_repo K (invoke (ObsRepoAdd domain) (repo_add K domain)) ;;
     settle (awaited p) ;;
     commit K ;;
     collectNewEvents K ;;
     ret ())
    (λ error, exit K (Some error) ;; throw error)
    (exit K None).

(** [async get(id, batchIdentifier?)] *)
Definition get (K : UnitOfWorkClass) (id : string) (batchIdentifier : option string)
    : M UnitOfWork (option DomainRef) :=
  enter K ;;
  try_catch_finally
    (p <- with_repo K (invoke (ObsRepoGet id batchIdentifier) (repo_get K id batchIdentifier)) ;;
     domain <- settle (awaited p) ;;
     commit K ;;
     ret domain)
    (λ error, exit K (Some error) ;; throw error)
    (exit K None).

(** [async update(domain)]: [this.repo.update(domain)] is not awaited. *)
Definition update (K : UnitOfWorkClass) (domain : DomainRef) : M UnitOfWork unit :=
  enter K ;;
  try_catch_finally
    (p <- with_repo K (invoke (ObsRepoUpdate domain) (repo_update K domain)) ;;
     settle (not_awaited p) ;;
     commit K ;;
     collectNewEvents K ;;
     ret ())
    (λ error, exit K (Some error) ;; throw error)
    (exit K None).

End IUnitOfWork.

(** ** The handler template ([IHandler]) *)

(** The mutable part of a handler instance: [_return_messages], and the
    state of the Unit of Work behind its [uow] field. *)
Record Handler : Type := {
  _return_messages : list Message;
  uow : UnitOfWork;
}.

(** What a concrete handler class supplies: its name, whether a Unit of
    Work is attached to [this.uow] (and which), and [_handle]. *)
Record HandlerClass : Type := {
  class_name : string;
  uow_class : option UnitOfWorkClass;
  _handle : Message → M Handler unit;
}.

Module IHandler.

(** A method call on [this.uow]. *)
Definition on_uow {A} (c : M UnitOfWork A) : M Handler A :=
  λ h,
    match c (uow h) with
    | (r, u, t) => (r, {| _return_messages := _return_messages h; uow := u |}, t)
    end.

(** [logError(error, context?)]: one [console.error] line carrying
    [this.constructor.name] and the error text. *)
Definition logError (C : HandlerClass) (error : string) : M Handler unit :=
  emit (ObsLogError (class_name C) error).

(** [addMessages(messages)]: [this._return_messages.push(...messages)] *)
Definition addMessages (messages : list Message) : M Handler unit :=
  modify (λ h, {| _return_messages := _return_messages h ++ messages; uow := uow h |}).

(** [finish()] *)
Definition finish : M Handler (list Message) := gets _return_messages.

(** [async handle(message)] *)
Definition handle (C : HandlerClass) (message : Message) : M Handler (list Message) :=
  match uow_class C with
  | Some K =>
      on_uow (IUnitOfWork.enter K) ;;
      try_catch_finally
        (_handle C message ;;
         (events <- on_uow (IUnitOfWork.collectNewEvents K) ;; addMessages events) ;;
         on_uow (IUnitOfWork.commit K) ;;
         finish)
        (λ error, logError C (error_text error) ;; throw error)
        (on_uow (IUnitOfWork.exit K None))
  | None =>
      try_catch
        (_handle C message ;; finish)
        (λ error, logError C (error_text error) ;; throw error)
  end.

End IHandler.

(** ** The bus ([MessageBus]) *)

Module MessageBus.

(** A registered handler, as the bus uses it: its [handle] method, acting
    on the world [W] of handler instances. *)
Abbreviation HandlerRef W := (Message → M W (list Message)) (only parsing).

(** The constructor arguments, and how a message prints in a template
    string. *)
Record Wiring (W : Type) : Type := {
  commandHandlers : gmap string (HandlerRef W);
  eventHandlers : gmap string (HandlerRef W);
  message_text : Message → string;
}.
Arguments commandHandlers {W} _.
Arguments eventHandlers {W} _.
Arguments message_text {W} _.

(** The bus instance: its [queue] field, next to the world the handlers
    live in (which they can change, while the queue is private). *)
Record Bus (W : Type) : Type := {
  queue : list Message;
  world : W;
}.
Arguments queue {W} _.
Arguments world {W} _.

Section Methods.
Context {W : Type}.

Definition in_world {A} (c : M W A) : M (Bus W) A :=
  λ b,
    match c (world b) with
    | (r, w, t) => (r, {| queue := queue b; world := w |}, t)
    end.

(** [this.queue.push(...newMessages)] *)
Definition push (newMessages : list Message) : M (Bus W) unit :=
  modify (λ b, {| queue := queue b ++ newMessages; world := world b |}).

Definition isCommand (message : Message) : bool :=
  match message with Command _ _ => true | _ => false end.

Definition isEvent (message : Message) : bool :=
  match message with Event _ _ _ => true | _ => false end.

Definition handleCommand (B : Wiring W) (command : Message) : M (Bus W) unit :=
  let handlerKey := constructor_name command in
  match commandHandlers B !! handlerKey with
  | None => throw (JsError "Error" ("No handler found for command: " +:+ handlerKey))
  | Some handler =>
      newMessages <- in_world (handler command) ;;
      push newMessages
  end.

Definition handleEvent (B : Wiring W) (event : Message) : M (Bus W) unit :=
  let handlerKey := constructor_name event in
  match eventHandlers B !! handlerKey with
  | None => ret ()
  | Some handler =>
      newMessages <- in_world (handler event) ;;
      push newMessages
  end.

(** The body of the [while] loop, after [this.queue.shift()]. *)
Definition dispatch (B : Wiring W) (currentMessage : Message) : M (Bus W) unit :=
  if isCommand currentMessage then handleCommand B currentMessage
  else if isEvent currentMessage then handleEvent B currentMessage
  else throw (JsError "Error" (message_text B currentMessage +:+ " was not a Command or Event")).

(** How a run of the loop ends; [Pending] is a run cut short by the
    step budget with messages still queued. *)
Inductive Completion : Type :=
| Resolved
| Rejected (v : JsValue)
| Pending.

(** A run: how it ended, the bus afterwards, the trace, and the
    messages taken off the queue by [shift], in order. *)
Record Run : Type := {
  completion : Completion;
  final : Bus W;
  trace : list Obs;
  processed : list Message;
}.

(** [while (this.queue.length > 0) { ... }], at most [fuel] iterations. *)
Fixpoint loop (B : Wiring W) (fuel : nat) (b : Bus W) : Run :=
  match queue b with
  | [] => {| completion := Resolved; final := b; trace := []; processed := [] |}
  | currentMessage :: rest =>
      match fuel with
      | O => {| completion := Pending; final := b; trace := []; processed := [] |}
      | S fuel' =>
          match dispatch B currentMessage {| queue := rest; world := world b |} with
          | (Ok _, b1, t1) =>
              let r := loop B fuel' b1 in
              {| completion := completion r; final := final r;
                 trace := t1 ++ trace r;
                 processed := currentMessage :: processed r |}
          | (Throw v, b1, t1) =>
              {| completion := Rejected v; final := b1; trace := t1;
                 processed := [currentMessage] |}
          end
      end
  end.

(** [async handle(message)]: [this.queue = [message]], then the loop. *)
Definition handle (B : Wiring W) (fuel : nat) (message : Message) (b : Bus W) : Run :=
  loop B fuel {| queue := [message]; world := world b |}.

(** The handler the bus resolves for a message, if any. *)
Definition resolve (B : Wiring W) (message : Message) : option (HandlerRef W) :=
  match message with
  | Command n _ => commandHandlers B !! n
  | Event n _ _ => eventHandlers B !! n
  | Plain _ => None
  end.

End Methods.

End MessageBus.

(** ** Concrete classes used in the examples *)

Module Scenario.

Definition boom : JsValue := JsError "Error" "boom".

Definition XCreated : Message := Event "XCreated" 1 None.
Definition YCreated : Message := Event "YCreated" 2 None.

(** An in-memory repository: [add] and [update] record the aggregate in
    [seen] (a set: no second copy). *)
Definition remember (d : DomainRef) (σ : Store) : Store :=
  {| seen := if bool_decide (d ∈ seen σ) then seen σ else seen σ ++ [d];
     buffers := buffers σ |}.

Definition memory_uow : UnitOfWorkClass := {|
  has_repo := true;
  repo_add d σ := (Promise (Ok ()), remember d σ);
  repo_get _ _ σ := (Promise (Ok (head (seen σ))), σ);
  repo_update d σ := (Promise (Ok ()), remember d σ);
  _commit σ := (Ok (), σ);
  _rollback σ := (Ok (), σ);
|}.

(** The same repository with storage down: [add], [get] and [update]
    are [async] methods whose promise is rejected with [boom]. *)
Definition rejecting_uow : UnitOfWorkClass := {|
  has_repo := true;
  repo_add _ σ := (Promise (Throw boom), σ);
  repo_get _ _ σ := (Promise (Throw boom), σ);
  repo_update _ σ := (Promise (Throw boom), σ);
  _commit σ := (Ok (), σ);
  _rollback σ := (Ok (), σ);
|}.

(** Aggregates 1 and 2 exist, each with one pending event; nothing has
    been seen or harvested yet. *)
Definition fresh_uow : UnitOfWork := {|
  _events := [];
  store := {| seen := []; buffers := {[ 1 := [XCreated]; 2 := [YCreated] ]} |};
|}.

(** Both aggregates seen, one event harvested earlier. *)
Definition busy_uow : UnitOfWork := {|
  _events := [Event "Earlier" 3 None];
  store := {| seen := [1; 2]; buffers := {[ 1 := [XCreated]; 2 := [YCreated] ]} |};
|}.

Definition fresh_handler : Handler := {| _return_messages := []; uow := fresh_uow |}.

(** A command handler whose business logic throws at once. *)
Definition ThrowingHandler : HandlerClass := {|
  class_name := "ThrowingHandler";
  uow_class := Some memory_uow;
  _handle _ := throw boom;
|}.

(** A command handler that stores aggregate 1 through the Unit of Work. *)
Definition CreateXHandler : HandlerClass := {|
  class_name := "CreateXHandler";
  uow_class := Some memory_uow;
  _handle _ := IHandler.on_uow (IUnitOfWork.add memory_uow 1);
|}.

(** Handlers without a Unit of Work: [StartHandler] answers a command
    with two [Step] events, [StepHandler] answers each [Step] with one
    [Done] event, for which nothing is registered. *)
Definition Step : Message := Event "Step" 1 None.
Definition Done : Message := Event "Done" 1 None.

Definition StartHandler : HandlerClass := {|
  class_name := "StartHandler";
  uow_class := None;
  _handle _ := IHandler.addMessages [Step; Step];
|}.

Definition StepHandler : HandlerClass := {|
  class_name := "StepHandler";
  uow_class := None;
  _handle _ := IHandler.addMessages [Done];
|}.

(** Two handler instances side by side, and their registration. *)
Definition first {A} (c : M Handler A) : M (Handler * Handler) A :=
  λ w, match c w.1 with (r, h, t) => (r, (h, w.2), t) end.
Definition second {A} (c : M Handler A) : M (Handler * Handler) A :=
  λ w, match c w.2 with (r, h, t) => (r, (w.1, h), t) end.

Definition wiring : MessageBus.Wiring (Handler * Handler) := {|
  MessageBus.commandHandlers := {[ "Start" := λ m, first (IHandler.handle StartHandler m) ]};
  MessageBus.eventHandlers := {[ "Step" := λ m, second (IHandler.handle StepHandler m) ]};
  MessageBus.message_text _ := "[object Object]";
|}.

Definition fresh_bus : MessageBus.Bus (Handler * Handler) :=
  {| MessageBus.queue := []; MessageBus.world := (fresh_handler, fresh_handler) |}.

End Scenario.

(** ** The entry points ([entrypoints/lambda.ts], [entrypoints/api.ts]) *)

(** [error instanceof Error ? error.message : 'Unknown error'], as both
    entry points report a caught value. *)
Definition reported_message (v : JsValue) : string :=
  match v with
  | JsError _ msg => msg
  | JsOther _ _ => "Unknown error"
  end.

Module LambdaEntry.

(** The object the Lambda handler returns; absent fields are [None]. *)
Record LambdaResponse : Type := {
  statusCode : nat;
  error : option string;
  external_job_id : option string;
  message : string;
  requestId : string;
}.

(** The four logger calls, with the fields they pass (the stack trace of
    the last one left out). *)
Inductive LogEntry (Input : Type) : Type :=
| InfoProcessing (requestId : string) (event : Input)
| ErrorValidation (requestId : string) (validationErrors : list string) (event : Input)
| InfoProcessed (requestId : string) (job : string)
| ErrorFailed (text : string) (requestId : string) (event : Input).
Arguments InfoProcessing {Input} _ _.
Arguments ErrorValidation {Input} _ _ _.
Arguments InfoProcessed {Input} _ _.
Arguments ErrorFailed {Input} _ _ _.

(** [LambdaConfig]: the bus, the request constructor's [validate] and
    (awaited) [create], [createCommand], and the two reads of
    [external_job_id]: on the request and, optionally chained, on the raw
    event.  Any of the three functions may throw. *)
Record LambdaConfig (W Input Request : Type) : Type := {
  messageBus : MessageBus.Wiring W;
  validate : Input → Outcome (list string);
  create : Input → Outcome Request;
  createCommand : Request → Outcome Message;
  request_job_id : Request → string;
  event_job_id : Input → option string;
}.
Arguments messageBus {W Input Request} _.
Arguments validate {W Input Request} _.
Arguments create {W Input Request} _.
Arguments createCommand {W Input Request} _.
Arguments request_job_id {W Input Request} _.
Arguments event_job_id {W Input Request} _.

(** One invocation: the response (none while the bus is still running
    when the step budget ends), the bus afterwards, what the handlers did,
    and the log. *)
Record Invocation (W Input : Type) : Type := {
  response : option LambdaResponse;
  bus_after : MessageBus.Bus W;
  bus_trace : list Obs;
  log : list (LogEntry Input);
}.
Arguments response {W Input} _.
Arguments bus_after {W Input} _.
Arguments bus_trace {W Input} _.
Arguments log {W Input} _.

Section Handler.
Context {W Input Request : Type}.

(** The [catch] block. *)
Definition failed (event_id : option string) (event : Input) (awsRequestId : string)
    (v : JsValue) (b : MessageBus.Bus W) (t : list Obs) : Invocation W Input :=
  {| response := Some {| statusCode := 500;
                         error := Some (reported_message v);
                         external_job_id := event_id;
                         message := "Request processing failed";
                         requestId := awsRequestId |};
     bus_after := b;
     bus_trace := t;
     log := [InfoProcessing awsRequestId event;
             ErrorFailed (reported_message v) awsRequestId event] |}.

(** The function returned by [createLambdaHandler(config)]. *)
Definition handler (config : LambdaConfig W Input Request) (fuel : nat)
    (event : Input) (awsRequestId : string) (b : MessageBus.Bus W) : Invocation W Input :=
  match validate config event with
  | Throw v => failed (event_job_id config event) event awsRequestId v b []
  | Ok validationErrors =>
      if (0 <? List.length validationErrors)%nat then
        let errorMessage := "Validation failed: " +:+ String.concat ", " validationErrors in
        {| response := Some {| statusCode := 400;
                               error := Some errorMessage;
                               external_job_id := event_job_id config event;
                               message := "Request validation failed";
                               requestId := awsRequestId |};
           bus_after := b;
           bus_trace := [];
           log := [InfoProcessing awsRequestId event;
                   ErrorValidation awsRequestId validationErrors event] |}
      else
        match create config event with
        | Throw v => failed (event_job_id config event) event awsRequestId v b []
        | Ok request =>
            match createCommand config request with
            | Throw v => failed (event_job_id config event) event awsRequestId v b []
            | Ok command =>
                let run := MessageBus.handle (messageBus config) fuel command b in
                match MessageBus.completion run with
                | MessageBus.Resolved =>
                    {| response := Some {| statusCode := 200;
                                           error := None;
                                           external_job_id := Some (request_job_id config request);
                                           message := "Request processed successfully";
                                           requestId := awsRequestId |};
                       bus_after := MessageBus.final run;
                       bus_trace := MessageBus.trace run;
                       log := [InfoProcessing awsRequestId event;
                               InfoProcessed awsRequestId (request_job_id config request)] |}
                | MessageBus.Rejected v =>
                    failed (event_job_id config event) event awsRequestId v
                      (MessageBus.final run) (MessageBus.trace run)
                | MessageBus.Pending =>
                    {| response := None;
                       bus_after := MessageBus.final run;
                       bus_trace := MessageBus.trace run;
                       log := [InfoProcessing awsRequestId event] |}
                end
            end
        end
  end.

End Handler.

End LambdaEntry.

Module ApiEntry.

(** The JSON bodies the endpoint answers with. *)
Inductive Body : Type :=
| ValidationFailed (details : list string)
| Completed (external_job_id : string)
| InternalError (message : string).

(** [ApiConfig], as [LambdaConfig] without the raw-event read, with the
    optional [basePath]. *)
Record ApiConfig (W Input Request : Type) : Type := {
  messageBus : MessageBus.Wiring W;
  validate : Input → Outcome (list string);
  create : Input → Outcome Request;
  createCommand : Request → Outcome Message;
  request_job_id : Request → string;
  basePath : option string;
}.
Arguments messageBus {W Input Request} _.
Arguments validate {W Input Request} _.
Arguments create {W Input Request} _.
Arguments createCommand {W Input Request} _.
Arguments request_job_id {W Input Request} _.
Arguments basePath {W Input Request} _.

(** One POST: the JSON body and status sent (none while the bus is still
    running when the step budget ends), the bus afterwards, what the
    handlers did, and the values printed by [console.error]. *)
Record Exchange (W : Type) : Type := {
  response : option (Body * nat);
  bus_after : MessageBus.Bus W;
  bus_trace : list Obs;
  printed : list JsValue;
}.
Arguments response {W} _.
Arguments bus_after {W} _.
Arguments bus_trace {W} _.
Arguments printed {W} _.

Section Endpoint.
Context {W Input Request : Type}.

(** [config.basePath || '/process']: the empty string is falsy. *)
Definition route (config : ApiConfig W Input Request) : string :=
  match basePath config with
  | Some p => if String.eqb p "" then "/process" else p
  | None => "/process"
  end.

(** The [catch] block. *)
Definition failed (v : JsValue) (b : MessageBus.Bus W) (t : list Obs) : Exchange W :=
  {| response := Some (InternalError (reported_message v), 500);
     bus_after := b; bus_trace := t; printed := [v] |}.

(** The POST handler registered by [createApiEntryPoint(config)];
    [json] is what awaiting [c.req.json()] gives. *)
Definition post (config : ApiConfig W Input Request) (fuel : nat)
    (json : Outcome Input) (b : MessageBus.Bus W) : Exchange W :=
  match json with
  | Throw v => failed v b []
  | Ok body =>
      match validate config body with
      | Throw v => failed v b []
      | Ok validationErrors =>
          if (0 <? List.length validationErrors)%nat then
            {| response := Some (ValidationFailed validationErrors, 400);
               bus_after := b; bus_trace := []; printed := [] |}
          else
            match create config body with
            | Throw v => failed v b []
            | Ok request =>
                match createCommand config request with
                | Throw v => failed v b []
                | Ok command =>
                    let run := MessageBus.handle (messageBus config) fuel command b in
                    match MessageBus.completion run with
                    | MessageBus.Resolved =>
                        {| response := Some (Completed (request_job_id config request), 200);
                           bus_after := MessageBus.final run;
                           bus_trace := MessageBus.trace run;
                           printed := [] |}
                    | MessageBus.Rejected v =>
                        failed v (MessageBus.final run) (MessageBus.trace run)
                    | MessageBus.Pending =>
                        {| response := None;
                           bus_after := MessageBus.final run;
                           bus_trace := MessageBus.trace run;
                           printed := [] |}
                    end
                end
            end
      end
  end.

End Endpoint.

End ApiEntry.

(** ** Scripted collaborators used in further examples *)

Module Cases.

(** A Unit of Work whose repository and hooks give fixed answers and
    leave the store alone. *)
Definition scripted_uow (attached : bool) (answer : Call unit)
    (found : Call (option DomainRef)) (commit rollback : Outcome unit)
    : UnitOfWorkClass := {|
  has_repo := attached;
  repo_add _ σ := (answer, σ);
  repo_get _ _ σ := (found, σ);
  repo_update _ σ := (answer, σ);
  _commit σ := (commit, σ);
  _rollback σ := (rollback, σ);
|}.

Definition detached_uow : UnitOfWorkClass :=
  scripted_uow false (Promise (Ok ())) (Promise (Ok None)) (Ok ()) (Ok ()).

Definition disk_full : JsValue := JsError "Error" "disk full".
Definition no_connection : JsValue := JsError "Error" "connection lost".

(** A handler attached to a Unit of Work that has no repository. *)
Definition DetachedHandler : HandlerClass := {|
  class_name := "DetachedHandler";
  uow_class := Some detached_uow;
  _handle _ := IHandler.addMessages [Scenario.Done];
|}.

(** A handler without a Unit of Work that queues a message and then
    throws. *)
Definition HalfwayHandler : HandlerClass := {|
  class_name := "HalfwayHandler";
  uow_class := None;
  _handle _ := IHandler.addMessages [Scenario.Done] ;; throw Scenario.boom;
|}.

(** A handler whose aggregate 1 is already seen and whose commit fails. *)
Definition failing_commit_uow : UnitOfWorkClass :=
  scripted_uow true (Promise (Ok ())) (Promise (Ok None)) (Throw disk_full) (Ok ()).



(** A bus with one failing command handler and one that answers with
    two unhandled events. *)
Definition wiring : MessageBus.Wiring (Handler * Handler) := {|
  MessageBus.commandHandlers :=
    {[ "Crash" := λ m, Scenario.first (IHandler.handle HalfwayHandler m);
       "Start" := λ m, Scenario.second (IHandler.handle Scenario.StepHandler m) ]};
  MessageBus.eventHandlers := ∅;
  MessageBus.message_text _ := "[object Object]";
|}.

(** Entry-point configurations: the raw input is an optional job
    identifier, the request is the identifier. *)
Definition lambda_config (command_name : string)
    : LambdaEntry.LambdaConfig (Handler * Handler) (option string) string := {|
  LambdaEntry.messageBus := Scenario.wiring;
  LambdaEntry.validate event :=
    Ok (match event with
        | Some _ => []
        | None => ["external_job_id is required"; "payload is required"]
        end);
  LambdaEntry.create event :=
    match event with Some job => Ok job | None => Throw (JsOther true "no id") end;
  LambdaEntry.createCommand request := Ok (Command command_name request);
  LambdaEntry.request_job_id request := request;
  LambdaEntry.event_job_id event := event;
|}.

(** A configuration whose validation lets everything through, and the
    answer it gives to an input without identifier. *)
Definition lenient_lambda_config
    : LambdaEntry.LambdaConfig (Handler * Handler) (option string) string := {|
  LambdaEntry.messageBus := Scenario.wiring;
  LambdaEntry.validate _ := Ok [];
  LambdaEntry.create event :=
    match event with Some job => Ok job | None => Throw (JsOther true "no id") end;
  LambdaEntry.createCommand request := Ok (Command "Start" request);
  LambdaEntry.request_job_id request := request;
  LambdaEntry.event_job_id event := event;
|}.

Definition unknown_error_response : LambdaEntry.LambdaResponse := {|
  LambdaEntry.statusCode := 500;
  LambdaEntry.error := Some "Unknown error";
  LambdaEntry.external_job_id := None;
  LambdaEntry.message := "Request processing failed";
  LambdaEntry.requestId := "req-1";
|}.

Definition api_config (command_name : string)
    : ApiEntry.ApiConfig (Handler * Handler) (option string) string := {|
  ApiEntry.messageBus := Scenario.wiring;
  ApiEntry.validate body :=
    Ok (match body with
        | Some _ => []
        | None => ["external_job_id is required"; "payload is required"]
        end);
  ApiEntry.create body :=
    match body with Some job => Ok job | None => Throw (JsOther true "no id") end;
  ApiEntry.createCommand request := Ok (Command command_name request);
  ApiEntry.request_job_id request := request;
  ApiEntry.basePath := None;
|}.

(** An endpoint in front of [wiring], whose command is [Crash]. *)
Definition crash_api_config
    : ApiEntry.ApiConfig (Handler * Handler) (option string) string := {|
  ApiEntry.messageBus := wiring;
  ApiEntry.validate _ := Ok [];
  ApiEntry.create body :=
    match body with Some job => Ok job | None => Throw (JsOther true "no id") end;
  ApiEntry.createCommand request := Ok (Command "Crash" request);
  ApiEntry.request_job_id request := request;
  ApiEntry.basePath := None;
|}.

End Cases.

(** ** Measures used in the statements *)

(** The calls an error path of [add], [get] or [update] makes once the
    error [e] is caught, [r] being what the rollback hook answers if it is
    called: the [catch] block's [exit(error)] (log and rollback for a
    truthy error, then the close unless the rollback threw), then the
    [finally] block's [exit()]. *)
Definition error_path_calls (e : JsValue) (r : Outcome unit) : list Obs :=
  (if is_truthy e
   then [ObsLogException e; ObsRollback]
        ++ (if is_ok r then [ObsCloseDbSession] else [])
   else [ObsCloseDbSession])
  ++ [ObsCloseDbSession].


(** An event for which the bus has no handler. *)
Definition unhandled_event {W} (B : MessageBus.Wiring W) (m : Message) : Prop :=
  match m with
  | Event n _ _ => MessageBus.eventHandlers B !! n = None
  | _ => False
  end.

(** * Properties *)

(** ** Counting in traces *)

Lemma tally_app p (t1 t2 : list Obs) : tally p (t1 ++ t2) = tally p t1 + tally p t2.
Proof. unfold tally. by rewrite List.filter_app, length_app. Qed.

Lemma tally_nil p : tally p [] = 0.
Proof. reflexivity. Qed.

Lemma tally_cons p o (t : list Obs) :
  tally p (o :: t) = (if p o then 1 else 0) + tally p t.
Proof. unfold tally. simpl. by destruct (p o). Qed.

(** ** Harvesting *)

Section Harvest.
Import IUnitOfWork.

Lemma drain_spec buffer acc : drain buffer acc = ([], acc ++ buffer).
Proof.
  revert acc. induction buffer as [|e rest IH]; intros acc; simpl.
  - by rewrite app_nil_r.
  - rewrite IH. by rewrite <- app_assoc.
Qed.

Lemma events_set_events_eq d σ :
  IDomain.events d (IDomain.set_events d [] σ) = [].
Proof.
  unfold IDomain.events, IDomain.set_events. simpl.
  rewrite lookup_alter_eq. by destruct (buffers σ !! d).
Qed.

Lemma events_set_events_ne d d' b σ :
  d ≠ d' → IDomain.events d' (IDomain.set_events d b σ) = IDomain.events d' σ.
Proof.
  intros Hne. unfold IDomain.events, IDomain.set_events. simpl.
  by rewrite lookup_alter_ne.
Qed.

Lemma set_events_same d σ :
  IDomain.events d σ = [] → IDomain.set_events d [] σ = σ.
Proof.
  unfold IDomain.events, IDomain.set_events. intros Hd.
  destruct σ as [sn bf]. simpl in *. f_equal.
  apply alter_id. intros x Hx. rewrite Hx in Hd. by simpl in Hd.
Qed.

Lemma drain_domain_spec u d :
  drain_domain u d =
    {| _events := _events u ++ IDomain.events d (store u);
       store := IDomain.set_events d [] (store u) |}.
Proof. unfold drain_domain. by rewrite drain_spec. Qed.

Lemma drain_domain_idle u d :
  IDomain.events d (store u) = [] → drain_domain u d = u.
Proof.
  intros Hd. rewrite drain_domain_spec, Hd, app_nil_r, set_events_same by done.
  by destruct u.
Qed.

Lemma flat_map_agree {A B} (f g : A → list B) (l : list A) :
  (∀ a, a ∈ l → f a = g a) → flat_map f l = flat_map g l.
Proof.
  induction l as [|a l IH]; intros Hfg; simpl; [done|].
  rewrite Hfg by left. rewrite IH; [done|]. intros b Hb. apply Hfg. by right.
Qed.

(** Draining a duplicate-free list of aggregates. *)
Lemma drain_list_spec l : ∀ u,
  NoDup l →
  _events (foldl drain_domain u l)
    = _events u ++ flat_map (λ d, IDomain.events d (store u)) l
  ∧ seen (store (foldl drain_domain u l)) = seen (store u)
  ∧ (∀ d, d ∈ l → IDomain.events d (store (foldl drain_domain u l)) = [])
  ∧ (∀ d, d ∉ l →
       IDomain.events d (store (foldl drain_domain u l)) = IDomain.events d (store u)).
Proof.
  induction l as [|d l IH]; intros u Hnd; simpl.
  - rewrite app_nil_r. repeat split; auto. intros d Hd. by apply elem_of_nil in Hd.
  - apply NoDup_cons in Hnd as [Hd Hnd].
    destruct (IH (drain_domain u d) Hnd) as (He & Hs & Hin & Hout).
    rewrite drain_domain_spec in He, Hs, Hin, Hout |- *.
    simpl in He, Hs, Hout.
    repeat split.
    + rewrite He, <- app_assoc. f_equal. f_equal.
      apply flat_map_agree. intros a Ha. apply events_set_events_ne.
      by intros ->.
    + by rewrite Hs.
    + intros d' Hd'. apply elem_of_cons in Hd' as [->|Hd']; [|by apply Hin].
      rewrite Hout by done. by apply events_set_events_eq.
    + intros d' Hd'. apply not_elem_of_cons in Hd' as [Hne Hd'].
      rewrite Hout by done. by apply events_set_events_ne.
Qed.

Lemma drain_list_idle l : ∀ u,
  (∀ d, d ∈ l → IDomain.events d (store u) = []) → foldl drain_domain u l = u.
Proof.
  induction l as [|d l IH]; intros u Hl; simpl; [done|].
  rewrite drain_domain_idle by (apply Hl; left).
  apply IH. intros d' Hd'. apply Hl. by right.
Qed.

End Harvest.

(** ** The Unit of Work *)

(** C6. With a repository attached, [collectNewEvents] returns the whole
    accumulated list: the events harvested before, then the pending events
    of every aggregate of [seen], aggregate by aggregate and in each
    aggregate's own order; afterwards the buffer of every aggregate of
    [seen] is empty; and calling it again at once returns the same list and
    changes nothing.  [seen] is a set: it lists no aggregate twice. *)
Theorem C6_collectNewEvents_drains_once (K : UnitOfWorkClass) (u : UnitOfWork) :
  has_repo K = true →
  NoDup (seen (store u)) →
  result_of (IUnitOfWork.collectNewEvents K u)
    = Ok (_events u ++ flat_map (λ d, IDomain.events d (store u)) (seen (store u)))
  ∧ (∀ d, d ∈ seen (store (state_of (IUnitOfWork.collectNewEvents K u))) →
       IDomain.events d (store (state_of (IUnitOfWork.collectNewEvents K u))) = [])
  ∧ IUnitOfWork.collectNewEvents K (state_of (IUnitOfWork.collectNewEvents K u))
    = (result_of (IUnitOfWork.collectNewEvents K u),
       state_of (IUnitOfWork.collectNewEvents K u), []).
Proof.
  intros Hrepo Hnd.
  destruct (drain_list_spec (seen (store u)) u Hnd) as (He & Hs & Hin & _).
  unfold IUnitOfWork.collectNewEvents. rewrite Hrepo.
  unfold result_of, state_of, bind, modify, gets, IUnitOfWork.drain_seen. simpl.
  split; [by rewrite He|]. split.
  - intros d Hd. apply Hin. by rewrite <- Hs.
  - rewrite drain_list_idle; [done|].
    intros d Hd. apply Hin. by rewrite <- Hs.
Qed.

Lemma C6_collectNewEvents_witness :
  result_of (IUnitOfWork.collectNewEvents Scenario.memory_uow Scenario.busy_uow)
    = Ok [Event "Earlier" 3 None; Scenario.XCreated; Scenario.YCreated].
Proof.
  apply (C6_collectNewEvents_drains_once Scenario.memory_uow Scenario.busy_uow).
  - reflexivity.
  - exact (bool_decide_unpack (NoDup [1; 2]) I).
Defined.

(** C10. [exit()] without an error closes the storage session and does
    nothing else: no rollback, no log line.  Whatever its argument, [exit]
    reaches the rollback hook only when it was passed an error (a truthy
    one). *)
Theorem C10_exit_without_error (K : UnitOfWorkClass) (u : UnitOfWork) :
  has_repo K = true →
  IUnitOfWork.exit K None u = (Ok (), u, [ObsCloseDbSession])
  ∧ ∀ (error : option JsValue) (u0 : UnitOfWork),
      0 < tally is_rollback (trace_of (IUnitOfWork.exit K error u0)) →
      ∃ e, error = Some e ∧ is_truthy e = true.
Proof.
  intros Hrepo. split.
  - unfold IUnitOfWork.exit, IUnitOfWork.with_repo. by rewrite Hrepo.
  - intros [e|] u0; unfold IUnitOfWork.exit, IUnitOfWork.with_repo; rewrite Hrepo.
    + destruct (is_truthy e) eqn:He; [eauto|].
      unfold trace_of. simpl. unfold tally. simpl. lia.
    + unfold trace_of. simpl. unfold tally. simpl. lia.
Qed.

Lemma C10_exit_without_error_witness :
  IUnitOfWork.exit Scenario.memory_uow None Scenario.busy_uow
    = (Ok (), Scenario.busy_uow, [ObsCloseDbSession]).
Proof.
  apply (C10_exit_without_error Scenario.memory_uow Scenario.busy_uow). reflexivity.
Defined.

Ltac run_uow Hrepo :=
  unfold IUnitOfWork.add, IUnitOfWork.get, IUnitOfWork.update,
    IUnitOfWork.exit, IUnitOfWork.commit, IUnitOfWork.enter,
    IUnitOfWork.collectNewEvents, IUnitOfWork._logException,
    IUnitOfWork.with_repo, IUnitOfWork.invoke, IUnitOfWork.settle,
    try_catch_finally, try_finally, try_catch, bind, ret, throw, emit, gets, modify,
    awaited, not_awaited;
  rewrite ?Hrepo; simpl.

(** C4, the code on both paths of [add].  When the repository's [add]
    returns, the storage session is opened once and closed once.  When it
    rejects, the session is opened once and closed twice: the [catch]
    block's [exit(error)] closes it and the [finally] block's [exit()]
    closes it again. *)
Theorem C4_add_error_path_closes_twice :
  trace_of (IUnitOfWork.add Scenario.memory_uow 1 Scenario.fresh_uow)
    = [ObsSetDbSession; ObsRepoAdd 1; ObsCommit; ObsCloseDbSession]
  ∧ tally is_set (trace_of (IUnitOfWork.add Scenario.memory_uow 1 Scenario.fresh_uow)) = 1
  ∧ tally is_close (trace_of (IUnitOfWork.add Scenario.memory_uow 1 Scenario.fresh_uow)) = 1
  ∧ result_of (IUnitOfWork.add Scenario.rejecting_uow 1 Scenario.fresh_uow)
    = Throw Scenario.boom
  ∧ trace_of (IUnitOfWork.add Scenario.rejecting_uow 1 Scenario.fresh_uow)
    = [ObsSetDbSession; ObsRepoAdd 1; ObsLogException Scenario.boom; ObsRollback;
       ObsCloseDbSession; ObsCloseDbSession]
  ∧ tally is_set (trace_of (IUnitOfWork.add Scenario.rejecting_uow 1 Scenario.fresh_uow)) = 1
  ∧ tally is_close (trace_of (IUnitOfWork.add Scenario.rejecting_uow 1 Scenario.fresh_uow)) = 2.
Proof. repeat split; reflexivity. Qed.

(** C5, the code at a repository whose [update] returns a rejected
    promise: [update] does not wait for it, so the envelope commits and
    returns normally, with no log line and no rollback; the same rejection
    in [add], which is awaited, takes the error path and is rethrown. *)
Theorem C5_update_misses_rejection :
  result_of (IUnitOfWork.update Scenario.rejecting_uow 1 Scenario.fresh_uow) = Ok ()
  ∧ trace_of (IUnitOfWork.update Scenario.rejecting_uow 1 Scenario.fresh_uow)
    = [ObsSetDbSession; ObsRepoUpdate 1; ObsCommit; ObsCloseDbSession]
  ∧ result_of (IUnitOfWork.add Scenario.rejecting_uow 1 Scenario.fresh_uow)
    = Throw Scenario.boom
  ∧ trace_of (IUnitOfWork.add Scenario.rejecting_uow 1 Scenario.fresh_uow)
    = [ObsSetDbSession; ObsRepoAdd 1; ObsLogException Scenario.boom; ObsRollback;
       ObsCloseDbSession; ObsCloseDbSession].
Proof. repeat split; reflexivity. Qed.

(** Whatever the repository: when its [update] returns a rejected promise
    and the commit hook succeeds, [IUnitOfWork.update] returns normally and
    its [catch] block never runs. *)
Lemma update_ignores_rejection (K : UnitOfWorkClass) (u : UnitOfWork)
    (domain : DomainRef) (e : JsValue) (σ σ' : Store) :
  has_repo K = true →
  repo_update K domain (store u) = (Promise (Throw e), σ) →
  _commit K σ = (Ok (), σ') →
  result_of (IUnitOfWork.update K domain u) = Ok ()
  ∧ trace_of (IUnitOfWork.update K domain u)
    = [ObsSetDbSession; ObsRepoUpdate domain; ObsCommit; ObsCloseDbSession].
Proof.
  intros Hrepo Hup Hc. unfold result_of, trace_of.
  run_uow Hrepo. rewrite Hup. simpl. rewrite Hc. simpl. done.
Qed.

(** ** The handler template *)

Ltac run_handler Huow Hrepo :=
  unfold IHandler.handle; rewrite ?Huow;
  unfold IHandler.on_uow, IHandler.logError, IHandler.addMessages, IHandler.finish,
    IUnitOfWork.exit, IUnitOfWork.commit, IUnitOfWork.enter,
    IUnitOfWork.collectNewEvents, IUnitOfWork.with_repo, IUnitOfWork.invoke,
    IUnitOfWork.settle,
    try_catch_finally, try_finally, try_catch, bind, ret, throw, emit, gets, modify;
  rewrite ?Hrepo; simpl.

(** The trace of a Unit-of-Work-bearing [handle]: the session is opened,
    [_handle] runs, then come the commit (if [_handle] returned) and the
    handler's log line (if anything threw), and the session is closed. *)
Lemma handle_uow_trace (C : HandlerClass) (K : UnitOfWorkClass) (m : Message) (h : Handler) :
  uow_class C = Some K →
  has_repo K = true →
  ∃ mid,
    trace_of (IHandler.handle C m h)
      = ObsSetDbSession :: trace_of (_handle C m h) ++ mid ++ [ObsCloseDbSession]
    ∧ match result_of (IHandler.handle C m h) with
      | Ok _ => mid = [ObsCommit]
      | Throw e =>
          mid = [ObsLogError (class_name C) (error_text e)]
          ∨ mid = [ObsCommit; ObsLogError (class_name C) (error_text e)]
      end.
Proof.
  intros Huow Hrepo. destruct h as [rm u]. unfold result_of, trace_of.
  run_handler Huow Hrepo.
  destruct (_handle C m _) as [[[[]|v] h1] t1]; simpl.
  - destruct (_commit K _) as [[[]|v] σ]; simpl.
    + exists [ObsCommit]. by rewrite <- !app_assoc.
    + exists [ObsCommit; ObsLogError (class_name C) (error_text v)].
      split; [by rewrite <- !app_assoc | by right].
  - exists [ObsLogError (class_name C) (error_text v)].
    split; [by rewrite <- !app_assoc | by left].
Qed.

(** When something throws in a Unit-of-Work-bearing [handle], the error
    is logged under the handler's name and rethrown (commit hook's or
    [_handle]'s own), and the template itself calls no rollback. *)
Lemma handle_uow_error_path (C : HandlerClass) (K : UnitOfWorkClass) (m : Message)
    (h : Handler) (e : JsValue) :
  uow_class C = Some K →
  has_repo K = true →
  result_of (IHandler.handle C m h) = Throw e →
  ObsLogError (class_name C) (error_text e) ∈ trace_of (IHandler.handle C m h)
  ∧ tally is_rollback (trace_of (IHandler.handle C m h))
    = tally is_rollback (trace_of (_handle C m h)).
Proof.
  intros Huow Hrepo He.
  destruct (handle_uow_trace C K m h Huow Hrepo) as (mid & Ht & Hmid).
  rewrite He in Hmid. rewrite Ht. split.
  - apply elem_of_cons. right. apply elem_of_app. right. apply elem_of_app. left.
    destruct Hmid as [-> | ->]; set_solver.
  - rewrite tally_cons, !tally_app. simpl.
    destruct Hmid as [-> | ->]; unfold tally; simpl; lia.
Qed.

(** C2, the code where the business logic throws: the error is logged
    under the handler's name, the session is released and the same error
    is rethrown, but the rollback hook is not called: [handle] calls
    [exit()] without the error. *)
Theorem C2_handle_error_without_rollback :
  result_of (IHandler.handle Scenario.ThrowingHandler (Command "CreateX" "job-1")
               Scenario.fresh_handler) = Throw Scenario.boom
  ∧ trace_of (IHandler.handle Scenario.ThrowingHandler (Command "CreateX" "job-1")
                Scenario.fresh_handler)
    = [ObsSetDbSession; ObsLogError "ThrowingHandler" "boom"; ObsCloseDbSession]
  ∧ tally is_rollback
      (trace_of (IHandler.handle Scenario.ThrowingHandler (Command "CreateX" "job-1")
                   Scenario.fresh_handler)) = 0.
Proof. repeat split; reflexivity. Qed.

(** C3, as the code has it.  With a Unit of Work and its repository
    attached, one [handle] call closes the storage session exactly once
    more than its [_handle] does: once when [_handle] leaves the session
    alone, whether [_handle] returns, [_handle] throws or the commit hook
    throws. *)
Theorem C3_handle_closes_once_on_top
    (C : HandlerClass) (K : UnitOfWorkClass) (m : Message) (h : Handler) :
  uow_class C = Some K →
  has_repo K = true →
  tally is_close (trace_of (IHandler.handle C m h))
    = tally is_close (trace_of (_handle C m h)) + 1.
Proof.
  intros Huow Hrepo.
  destruct (handle_uow_trace C K m h Huow Hrepo) as (mid & Ht & Hmid).
  rewrite Ht, tally_cons, !tally_app. simpl.
  assert (tally is_close mid = 0) as ->.
  { destruct (result_of _); [|destruct Hmid]; subst mid; reflexivity. }
  unfold tally. simpl. lia.
Qed.

Lemma C3_handle_closes_once_on_top_witness :
  tally is_close
    (trace_of (IHandler.handle Scenario.ThrowingHandler (Command "CreateX" "job-1")
                 Scenario.fresh_handler))
  = tally is_close
      (trace_of (_handle Scenario.ThrowingHandler (Command "CreateX" "job-1")
                   Scenario.fresh_handler)) + 1.
Proof.
  apply (C3_handle_closes_once_on_top Scenario.ThrowingHandler Scenario.memory_uow);
    reflexivity.
Defined.

(** C3 as stated fails for a handler whose [_handle] stores an aggregate
    through [uow.add]: [_handle] returns, and the session has been closed
    twice within the one [handle] call. *)
Lemma C3_counterexample :
  result_of (IHandler.handle Scenario.CreateXHandler (Command "CreateX" "job-1")
               Scenario.fresh_handler) = Ok [Scenario.XCreated]
  ∧ trace_of (IHandler.handle Scenario.CreateXHandler (Command "CreateX" "job-1")
                Scenario.fresh_handler)
    = [ObsSetDbSession; ObsSetDbSession; ObsRepoAdd 1; ObsCommit; ObsCloseDbSession;
       ObsCommit; ObsCloseDbSession]
  ∧ tally is_close
      (trace_of (IHandler.handle Scenario.CreateXHandler (Command "CreateX" "job-1")
                   Scenario.fresh_handler)) ≠ 1.
Proof.
  split; [reflexivity|]. split; [reflexivity|].
  intros H. vm_compute in H. discriminate H.
Qed.




(** ** The bus *)

Section BusProperties.
Context {W : Type} (B : MessageBus.Wiring W).
Import MessageBus.

Ltac run_bus :=
  unfold dispatch, handleCommand, handleEvent, isCommand, isEvent, constructor_name,
    push, in_world, bind, ret, throw, modify; cbv beta iota zeta.

(** A resolved handler that returns [ms]: the bus appends [ms] to the
    queue. *)
Lemma dispatch_resolved m h rest w ms w1 t1 :
  resolve B m = Some h →
  h m w = (Ok ms, w1, t1) →
  dispatch B m {| queue := rest; world := w |}
    = (Ok (), {| queue := rest ++ ms; world := w1 |}, t1).
Proof.
  intros Hres Hh. destruct m as [n j|n d e|n]; unfold resolve in Hres; [| |done].
  - run_bus. rewrite Hres. simpl. rewrite Hh. simpl. by rewrite app_nil_r.
  - run_bus. rewrite Hres. simpl. rewrite Hh. simpl. by rewrite app_nil_r.
Qed.

(** No iteration takes anything off the queue it was given or reorders
    it: it can only append. *)
Lemma dispatch_extends_queue m b b1 t :
  dispatch B m b = (Ok (), b1, t) → ∃ ms, queue b1 = queue b ++ ms.
Proof.
  destruct m as [n j|n d e|n]; run_bus.
  - destruct (commandHandlers B !! n) as [h|]; [|discriminate]. simpl.
    destruct (h _ (world b)) as [[[ms|v] w1] t1]; [|discriminate].
    intros [= <- _]. by exists ms.
  - destruct (eventHandlers B !! n) as [h|]; simpl.
    + destruct (h _ (world b)) as [[[ms|v] w1] t1]; [|discriminate].
      intros [= <- _]. by exists ms.
    + intros [= <- _]. exists []. by rewrite app_nil_r.
  - discriminate.
Qed.

(** Messages leave the queue in queue order: what a run processes and
    the queue it started from are one a prefix of the other, and a run
    that completes has processed the whole starting queue first. *)
Lemma loop_order fuel : ∀ b,
  (processed (loop B fuel b) `prefix_of` queue b
   ∨ queue b `prefix_of` processed (loop B fuel b))
  ∧ (completion (loop B fuel b) = Resolved →
     queue b `prefix_of` processed (loop B fuel b)).
Proof.
  induction fuel as [|fuel IH]; intros [q w]; simpl.
  - destruct q as [|m rest]; simpl.
    + split; [by left | done].
    + split; [left; apply prefix_nil | discriminate].
  - destruct q as [|m rest]; simpl; [split; [by left | done]|].
    destruct (dispatch B m _) as [[[[]|v] b1] t1] eqn:Hd; simpl.
    + destruct (dispatch_extends_queue _ _ _ _ Hd) as [ms Hq]. simpl in Hq.
      destruct (IH b1) as [Hord Hdone]. rewrite Hq in Hord, Hdone. split.
      * destruct Hord as [Hp | Hp].
        -- destruct (prefix_weak_total (processed (loop B fuel b1)) rest (rest ++ ms))
             as [H|H]; [done | by apply prefix_app_r | |].
           ++ left. by apply prefix_cons.
           ++ right. by apply prefix_cons.
        -- right. apply prefix_cons. by eapply prefix_app_l.
      * intros Hc. apply prefix_cons. eapply prefix_app_l. by apply Hdone.
    + split; [|discriminate]. left. apply prefix_cons, prefix_nil.
Qed.

(** Events nobody handles drain the queue without effect. *)
Lemma loop_unhandled_events q : ∀ fuel w,
  Forall (unhandled_event B) q →
  (List.length q ≤ fuel)%nat →
  loop B fuel {| queue := q; world := w |}
    = {| completion := Resolved; final := {| queue := []; world := w |};
         trace := []; processed := q |}.
Proof.
  induction q as [|m rest IH]; intros fuel w Hall Hlen.
  - by destruct fuel.
  - apply Forall_cons in Hall as [Hm Hall].
    destruct fuel as [|fuel]; simpl in Hlen; [lia|].
    destruct m as [n j|n d e|n]; simpl in Hm; try done.
    simpl. run_bus. rewrite Hm. simpl.
    rewrite IH by (done || lia). done.
Qed.

(** C7. When the handler resolved for the head message [m] returns
    [ms], the bus appends [ms] at the tail of the queue in the order
    returned; the run goes on from that queue, and the messages it takes
    next are those already queued, then [ms], in this order: on every
    run what is processed after [m] and [rest ++ ms] are one a prefix of
    the other, and a run that completes has processed all of [rest], then
    all of [ms], before anything else. *)
Theorem C7_returned_messages_fifo
    (fuel : nat) (m : Message) (rest : list Message) (w : W)
    (h : HandlerRef W) (ms : list Message) (w1 : W) (t1 : list Obs) :
  resolve B m = Some h →
  h m w = (Ok ms, w1, t1) →
  dispatch B m {| queue := rest; world := w |}
    = (Ok (), {| queue := rest ++ ms; world := w1 |}, t1)
  ∧ processed (loop B (S fuel) {| queue := m :: rest; world := w |})
    = m :: processed (loop B fuel {| queue := rest ++ ms; world := w1 |})
  ∧ (processed (loop B fuel {| queue := rest ++ ms; world := w1 |})
       `prefix_of` rest ++ ms
     ∨ rest ++ ms
       `prefix_of` processed (loop B fuel {| queue := rest ++ ms; world := w1 |}))
  ∧ (completion (loop B (S fuel) {| queue := m :: rest; world := w |}) = Resolved →
     m :: rest ++ ms
       `prefix_of` processed (loop B (S fuel) {| queue := m :: rest; world := w |})).
Proof.
  intros Hres Hh.
  pose proof (dispatch_resolved m h rest w ms w1 t1 Hres Hh) as Hd.
  destruct (loop_order fuel {| queue := rest ++ ms; world := w1 |}) as [Hord Hdone].
  simpl in Hord, Hdone.
  split; [done|]. simpl. rewrite Hd. simpl.
  split; [done|]. split; [done|].
  intros Hc. apply prefix_cons. by apply Hdone.
Qed.

(** C8. A command whose class has no entry in [commandHandlers] makes
    the run reject with the error [No handler found for command: <name>];
    nothing queued behind it is processed (it stays in the queue), no
    handler runs and the world is unchanged.  So does [handle] called on
    such a command. *)
Theorem C8_unhandled_command_rejects
    (fuel : nat) (name job : string) (rest : list Message) (b : Bus W) :
  commandHandlers B !! name = None →
  loop B (S fuel) {| queue := Command name job :: rest; world := world b |}
    = {| completion := Rejected (JsError "Error" ("No handler found for command: " +:+ name));
         final := {| queue := rest; world := world b |};
         trace := [];
         processed := [Command name job] |}
  ∧ handle B (S fuel) (Command name job) b
    = {| completion := Rejected (JsError "Error" ("No handler found for command: " +:+ name));
         final := {| queue := []; world := world b |};
         trace := [];
         processed := [Command name job] |}.
Proof.
  intros Hnone. unfold handle. simpl. run_bus. rewrite Hnone. done.
Qed.

(** C9. An event whose class has no entry in [eventHandlers] is
    dropped: the iteration returns normally, enqueues nothing, runs no
    handler, and the loop goes on with the rest of the queue; when all
    that remains are such events, the run completes normally, having
    taken each off the queue. *)
Theorem C9_unhandled_event_dropped
    (fuel : nat) (name : string) (d : DomainRef) (e : option string)
    (rest : list Message) (w : W) :
  eventHandlers B !! name = None →
  dispatch B (Event name d e) {| queue := rest; world := w |}
    = (Ok (), {| queue := rest; world := w |}, [])
  ∧ loop B (S fuel) {| queue := Event name d e :: rest; world := w |}
    = {| completion := completion (loop B fuel {| queue := rest; world := w |});
         final := final (loop B fuel {| queue := rest; world := w |});
         trace := trace (loop B fuel {| queue := rest; world := w |});
         processed := Event name d e :: processed (loop B fuel {| queue := rest; world := w |}) |}
  ∧ (Forall (unhandled_event B) rest →
     (List.length rest ≤ fuel)%nat →
     loop B (S fuel) {| queue := Event name d e :: rest; world := w |}
       = {| completion := Resolved; final := {| queue := []; world := w |};
            trace := []; processed := Event name d e :: rest |}).
Proof.
  intros Hnone.
  assert (Hd : dispatch B (Event name d e) {| queue := rest; world := w |}
               = (Ok (), {| queue := rest; world := w |}, [])).
  { run_bus. by rewrite Hnone. }
  split; [done|]. split.
  - simpl. by rewrite Hd.
  - intros Hall Hlen. apply loop_unhandled_events; [|simpl; lia].
    apply Forall_cons. by split.
Qed.

End BusProperties.

Lemma C7_returned_messages_fifo_witness :
  MessageBus.processed
    (MessageBus.loop Scenario.wiring 10
       {| MessageBus.queue := [Command "Start" "job-1"; Scenario.Done];
          MessageBus.world := (Scenario.fresh_handler, Scenario.fresh_handler) |})
  = Command "Start" "job-1"
    :: MessageBus.processed
         (MessageBus.loop Scenario.wiring 9
            {| MessageBus.queue := [Scenario.Done] ++ [Scenario.Step; Scenario.Step];
               MessageBus.world :=
                 ({| _return_messages := [Scenario.Step; Scenario.Step];
                     uow := Scenario.fresh_uow |},
                  Scenario.fresh_handler) |}).
Proof.
  refine (proj1 (proj2
    (C7_returned_messages_fifo Scenario.wiring 9 (Command "Start" "job-1")
       [Scenario.Done] (Scenario.fresh_handler, Scenario.fresh_handler)
       (λ m, Scenario.first (IHandler.handle Scenario.StartHandler m))
       [Scenario.Step; Scenario.Step]
       ({| _return_messages := [Scenario.Step; Scenario.Step];
           uow := Scenario.fresh_uow |}, Scenario.fresh_handler)
       [] _ _))); reflexivity.
Defined.

Lemma C8_unhandled_command_rejects_witness :
  MessageBus.handle Scenario.wiring 5 (Command "Missing" "job-1") Scenario.fresh_bus
  = {| MessageBus.completion :=
         MessageBus.Rejected (JsError "Error" "No handler found for command: Missing");
       MessageBus.final :=
         {| MessageBus.queue := [];
            MessageBus.world := (Scenario.fresh_handler, Scenario.fresh_handler) |};
       MessageBus.trace := [];
       MessageBus.processed := [Command "Missing" "job-1"] |}.
Proof.
  refine (proj2
    (C8_unhandled_command_rejects Scenario.wiring 4 "Missing" "job-1" []
       Scenario.fresh_bus _)).
  reflexivity.
Defined.

Lemma C9_unhandled_event_dropped_witness :
  MessageBus.loop Scenario.wiring 3
    {| MessageBus.queue := [Scenario.Done; Scenario.Done; Scenario.Done];
       MessageBus.world := (Scenario.fresh_handler, Scenario.fresh_handler) |}
  = {| MessageBus.completion := MessageBus.Resolved;
       MessageBus.final :=
         {| MessageBus.queue := [];
            MessageBus.world := (Scenario.fresh_handler, Scenario.fresh_handler) |};
       MessageBus.trace := [];
       MessageBus.processed := [Scenario.Done; Scenario.Done; Scenario.Done] |}.
Proof.
  refine (proj2 (proj2
    (C9_unhandled_event_dropped Scenario.wiring 2 "Done" 1 None
       [Scenario.Done; Scenario.Done]
       (Scenario.fresh_handler, Scenario.fresh_handler) _)) _ _).
  - reflexivity.
  - repeat constructor.
  - simpl. lia.
Defined.


(** * Further properties *)

(** ** The Unit of Work: error and edge behaviour *)

(** X1. Without a repository attached, [add], [get] and [update] fail
    in [enter], before their [try] block: a [TypeError] is thrown, nothing
    is logged, no hook or repository method is called, and the state is
    untouched. *)
Theorem X1_operations_without_repository
    (K : UnitOfWorkClass) (u : UnitOfWork)
    (domain : DomainRef) (id : string) (batchIdentifier : option string) :
  has_repo K = false →
  IUnitOfWork.add K domain u = (Throw IUnitOfWork.type_error, u, [])
  ∧ IUnitOfWork.get K id batchIdentifier u = (Throw IUnitOfWork.type_error, u, [])
  ∧ IUnitOfWork.update K domain u = (Throw IUnitOfWork.type_error, u, []).
Proof.
  intros Hrepo. repeat split; run_uow Hrepo; reflexivity.
Qed.

Lemma X1_operations_without_repository_witness :
  IUnitOfWork.add Cases.detached_uow 1 Scenario.busy_uow
    = (Throw IUnitOfWork.type_error, Scenario.busy_uow, []).
Proof.
  apply (X1_operations_without_repository Cases.detached_uow Scenario.busy_uow 1 "job-1" None).
  reflexivity.
Defined.

(** X2. [exit(error)] with a truthy error logs it and calls the
    rollback hook; [closeDbSession] is called after that only when the
    hook returns.  When the hook throws, [exit] throws the hook's error
    and the session is not closed. *)
Theorem X2_exit_with_error
    (K : UnitOfWorkClass) (u : UnitOfWork) (e : JsValue)
    (r : Outcome unit) (σ : Store) :
  has_repo K = true →
  is_truthy e = true →
  _rollback K (store u) = (r, σ) →
  trace_of (IUnitOfWork.exit K (Some e) u)
    = [ObsLogException e; ObsRollback]
      ++ (if is_ok r then [ObsCloseDbSession] else [])
  ∧ ∀ e', r = Throw e' → result_of (IUnitOfWork.exit K (Some e) u) = Throw e'.
Proof.
  intros Hrepo He Hr. unfold trace_of, result_of.
  run_uow Hrepo. rewrite He. simpl. rewrite Hr.
  destruct r as [[]|v]; simpl; (split; [done|]); intros e' [= <-]; done.
Qed.

Lemma X2_exit_with_error_witness :
  trace_of
    (IUnitOfWork.exit
       (Cases.scripted_uow true (Promise (Ok ())) (Promise (Ok None)) (Ok ())
          (Throw Cases.no_connection))
       (Some Scenario.boom) Scenario.busy_uow)
  = [ObsLogException Scenario.boom; ObsRollback] ++ [].
Proof.
  refine (proj1
    (X2_exit_with_error
       (Cases.scripted_uow true (Promise (Ok ())) (Promise (Ok None)) (Ok ())
          (Throw Cases.no_connection))
       Scenario.busy_uow Scenario.boom (Throw Cases.no_connection)
       (store Scenario.busy_uow) _ _ _)); reflexivity.
Defined.

(** X3. When the repository's [add] throws or rejects with a truthy
    error and the rollback hook returns, [add] throws, having logged the
    error, called the rollback hook and then [closeDbSession] twice; the
    commit hook is never called and nothing is harvested. *)
Theorem X3_add_failure_rolls_back
    (K : UnitOfWorkClass) (u : UnitOfWork) (domain : DomainRef)
    (c : Call unit) (e : JsValue) (σ σ' : Store) :
  has_repo K = true →
  repo_add K domain (store u) = (c, σ) →
  awaited c = Throw e →
  is_truthy e = true →
  _rollback K σ = (Ok (), σ') →
  trace_of (IUnitOfWork.add K domain u)
    = [ObsSetDbSession; ObsRepoAdd domain; ObsLogException e; ObsRollback;
       ObsCloseDbSession; ObsCloseDbSession]
  ∧ is_ok (result_of (IUnitOfWork.add K domain u)) = false
  ∧ _events (state_of (IUnitOfWork.add K domain u)) = _events u.
Proof.
  intros Hrepo Hadd Hc He Hr. unfold trace_of, result_of, state_of.
  run_uow Hrepo. rewrite Hadd. simpl.
  destruct c as [v|[[]|v]]; simpl in Hc; try discriminate;
    injection Hc as ->; simpl; rewrite He; simpl; rewrite Hr; done.
Qed.

Lemma X3_add_failure_rolls_back_witness :
  trace_of (IUnitOfWork.add Scenario.rejecting_uow 1 Scenario.busy_uow)
    = [ObsSetDbSession; ObsRepoAdd 1; ObsLogException Scenario.boom; ObsRollback;
       ObsCloseDbSession; ObsCloseDbSession].
Proof.
  refine (proj1
    (X3_add_failure_rolls_back Scenario.rejecting_uow Scenario.busy_uow 1
       (Promise (Throw Scenario.boom)) Scenario.boom
       (store Scenario.busy_uow) (store Scenario.busy_uow) _ _ _ _ _)); reflexivity.
Defined.

(** X4. When the rollback hook itself throws on the error path of
    [add], [closeDbSession] is called once only, by the [finally] block:
    the [catch] block's [exit(error)] is abandoned before its close.
    [add] throws, and nothing is committed or harvested. *)
Theorem X4_rollback_failure_single_close
    (K : UnitOfWorkClass) (u : UnitOfWork) (domain : DomainRef)
    (c : Call unit) (e e' : JsValue) (σ σ' : Store) :
  has_repo K = true →
  repo_add K domain (store u) = (c, σ) →
  awaited c = Throw e →
  is_truthy e = true →
  _rollback K σ = (Throw e', σ') →
  trace_of (IUnitOfWork.add K domain u)
    = [ObsSetDbSession; ObsRepoAdd domain; ObsLogException e; ObsRollback;
       ObsCloseDbSession]
  ∧ is_ok (result_of (IUnitOfWork.add K domain u)) = false
  ∧ _events (state_of (IUnitOfWork.add K domain u)) = _events u.
Proof.
  intros Hrepo Hadd Hc He Hr. unfold trace_of, result_of, state_of.
  run_uow Hrepo. rewrite Hadd. simpl.
  destruct c as [v|[[]|v]]; simpl in Hc; try discriminate;
    injection Hc as ->; simpl; rewrite He; simpl; rewrite Hr; done.
Qed.

Lemma X4_rollback_failure_single_close_witness :
  trace_of
    (IUnitOfWork.add
       (Cases.scripted_uow true (SyncThrow Scenario.boom) (Promise (Ok None)) (Ok ())
          (Throw Cases.no_connection))
       1 Scenario.busy_uow)
  = [ObsSetDbSession; ObsRepoAdd 1; ObsLogException Scenario.boom; ObsRollback;
     ObsCloseDbSession].
Proof.
  refine (proj1
    (X4_rollback_failure_single_close
       (Cases.scripted_uow true (SyncThrow Scenario.boom) (Promise (Ok None)) (Ok ())
          (Throw Cases.no_connection))
       Scenario.busy_uow 1 (SyncThrow Scenario.boom) Scenario.boom Cases.no_connection
       (store Scenario.busy_uow) (store Scenario.busy_uow) _ _ _ _ _)); reflexivity.
Defined.

(** X5. When the repository's [add] fails with a falsy value (as in
    [throw ""] or a promise rejected with [undefined]), [add] throws
    without a log line and without calling the rollback hook:
    [exit(error)] tests [if (error)].  [closeDbSession] is still called
    twice. *)
Theorem X5_falsy_error_skips_rollback
    (K : UnitOfWorkClass) (u : UnitOfWork) (domain : DomainRef)
    (c : Call unit) (e : JsValue) (σ : Store) :
  has_repo K = true →
  repo_add K domain (store u) = (c, σ) →
  awaited c = Throw e →
  is_truthy e = false →
  trace_of (IUnitOfWork.add K domain u)
    = [ObsSetDbSession; ObsRepoAdd domain; ObsCloseDbSession; ObsCloseDbSession]
  ∧ is_ok (result_of (IUnitOfWork.add K domain u)) = false
  ∧ _events (state_of (IUnitOfWork.add K domain u)) = _events u.
Proof.
  intros Hrepo Hadd Hc He. unfold trace_of, result_of, state_of.
  run_uow Hrepo. rewrite Hadd. simpl.
  destruct c as [v|[[]|v]]; simpl in Hc; try discriminate;
    injection Hc as ->; simpl; rewrite He; done.
Qed.

Lemma X5_falsy_error_skips_rollback_witness :
  trace_of
    (IUnitOfWork.add
       (Cases.scripted_uow true (Promise (Throw (JsOther false "undefined")))
          (Promise (Ok None)) (Ok ()) (Ok ()))
       1 Scenario.busy_uow)
  = [ObsSetDbSession; ObsRepoAdd 1; ObsCloseDbSession; ObsCloseDbSession].
Proof.
  refine (proj1
    (X5_falsy_error_skips_rollback
       (Cases.scripted_uow true (Promise (Throw (JsOther false "undefined")))
          (Promise (Ok None)) (Ok ()) (Ok ()))
       Scenario.busy_uow 1 (Promise (Throw (JsOther false "undefined")))
       (JsOther false "undefined") (store Scenario.busy_uow) _ _ _ _)); reflexivity.
Defined.

(** X6. When the commit hook throws inside [add], whatever it throws
    and whatever the rollback hook then does: [add] throws, the harvest
    that follows the commit is skipped ([_events] is unchanged), and the
    calls made are [setDbSession], the repository's [add], the commit
    hook, then those of the error path (log and rollback only for a truthy
    error). *)
Theorem X6_commit_failure_harvests_nothing
    (K : UnitOfWorkClass) (u : UnitOfWork) (domain : DomainRef)
    (e : JsValue) (r : Outcome unit) (σ1 σ2 σ3 : Store) :
  has_repo K = true →
  repo_add K domain (store u) = (Promise (Ok ()), σ1) →
  _commit K σ1 = (Throw e, σ2) →
  _rollback K σ2 = (r, σ3) →
  _events (state_of (IUnitOfWork.add K domain u)) = _events u
  ∧ is_ok (result_of (IUnitOfWork.add K domain u)) = false
  ∧ trace_of (IUnitOfWork.add K domain u)
    = [ObsSetDbSession; ObsRepoAdd domain; ObsCommit] ++ error_path_calls e r.
Proof.
  intros Hrepo Hadd Hc Hr. unfold trace_of, result_of, state_of, error_path_calls.
  run_uow Hrepo. rewrite Hadd. simpl. rewrite Hc. simpl.
  destruct (is_truthy e); simpl; [|done].
  rewrite Hr. by destruct r as [[]|v].
Qed.

Lemma X6_commit_failure_harvests_nothing_witness :
  _events (state_of (IUnitOfWork.add Cases.failing_commit_uow 1 Scenario.busy_uow))
    = _events Scenario.busy_uow
  ∧ is_ok (result_of (IUnitOfWork.add Cases.failing_commit_uow 1 Scenario.busy_uow))
    = false
  ∧ trace_of (IUnitOfWork.add Cases.failing_commit_uow 1 Scenario.busy_uow)
    = [ObsSetDbSession; ObsRepoAdd 1; ObsCommit]
      ++ error_path_calls Cases.disk_full (Ok ()).
Proof.
  apply (X6_commit_failure_harvests_nothing Cases.failing_commit_uow Scenario.busy_uow 1
           Cases.disk_full (Ok ()) (store Scenario.busy_uow) (store Scenario.busy_uow)
           (store Scenario.busy_uow)); reflexivity.
Defined.

(** X7. A successful [add] (repository and commit hook both return)
    opens the session, stores, commits, harvests and closes once; the
    harvest moves the pending events of every aggregate the repository has
    then seen into [_events], in [seen] order, and empties those buffers. *)
Theorem X7_add_success_harvests
    (K : UnitOfWorkClass) (u : UnitOfWork) (domain : DomainRef) (σ1 σ2 : Store) :
  has_repo K = true →
  repo_add K domain (store u) = (Promise (Ok ()), σ1) →
  _commit K σ1 = (Ok (), σ2) →
  NoDup (seen σ2) →
  result_of (IUnitOfWork.add K domain u) = Ok ()
  ∧ trace_of (IUnitOfWork.add K domain u)
    = [ObsSetDbSession; ObsRepoAdd domain; ObsCommit; ObsCloseDbSession]
  ∧ _events (state_of (IUnitOfWork.add K domain u))
    = _events u ++ flat_map (λ d, IDomain.events d σ2) (seen σ2)
  ∧ seen (store (state_of (IUnitOfWork.add K domain u))) = seen σ2
  ∧ ∀ d, d ∈ seen σ2 →
      IDomain.events d (store (state_of (IUnitOfWork.add K domain u))) = [].
Proof.
  intros Hrepo Hadd Hc Hnd.
  destruct (drain_list_spec (seen σ2) {| _events := _events u; store := σ2 |} Hnd)
    as (He & Hs & Hin & _).
  unfold result_of, trace_of, state_of. run_uow Hrepo.
  rewrite Hadd. simpl. rewrite Hc. simpl.
  unfold IUnitOfWork.drain_seen. simpl. done.
Qed.

Lemma X7_add_success_harvests_witness :
  _events (state_of (IUnitOfWork.add Scenario.memory_uow 1 Scenario.fresh_uow))
    = [] ++ flat_map
              (λ d, IDomain.events d (Scenario.remember 1 (store Scenario.fresh_uow)))
              (seen (Scenario.remember 1 (store Scenario.fresh_uow))).
Proof.
  refine (proj1 (proj2 (proj2
    (X7_add_success_harvests Scenario.memory_uow Scenario.fresh_uow 1
       (Scenario.remember 1 (store Scenario.fresh_uow))
       (Scenario.remember 1 (store Scenario.fresh_uow)) _ _ _ _)))); try reflexivity.
  exact (bool_decide_unpack (NoDup [1]) I).
Defined.

(** X8. A synchronous throw from the repository's [update] (unlike a
    rejected promise) does reach the [catch] block of [update], whatever
    is thrown and whatever the rollback hook then does: [update] throws,
    the commit hook is not called, nothing is harvested, and after
    [setDbSession] and the repository's [update] the calls made are those
    of the error path (log and rollback only for a truthy error). *)
Theorem X8_update_synchronous_throw
    (K : UnitOfWorkClass) (u : UnitOfWork) (domain : DomainRef)
    (e : JsValue) (r : Outcome unit) (σ σ' : Store) :
  has_repo K = true →
  repo_update K domain (store u) = (SyncThrow e, σ) →
  _rollback K σ = (r, σ') →
  is_ok (result_of (IUnitOfWork.update K domain u)) = false
  ∧ trace_of (IUnitOfWork.update K domain u)
    = [ObsSetDbSession; ObsRepoUpdate domain] ++ error_path_calls e r
  ∧ _events (state_of (IUnitOfWork.update K domain u)) = _events u.
Proof.
  intros Hrepo Hup Hr. unfold trace_of, result_of, state_of, error_path_calls.
  run_uow Hrepo. rewrite Hup. simpl.
  destruct (is_truthy e); simpl; [|done].
  rewrite Hr. by destruct r as [[]|v].
Qed.

Lemma X8_update_synchronous_throw_witness :
  is_ok
    (result_of
       (IUnitOfWork.update
          (Cases.scripted_uow true (SyncThrow Scenario.boom) (Promise (Ok None))
             (Ok ()) (Ok ()))
          1 Scenario.busy_uow))
  = false.
Proof.
  refine (proj1
    (X8_update_synchronous_throw
       (Cases.scripted_uow true (SyncThrow Scenario.boom) (Promise (Ok None)) (Ok ()) (Ok ()))
       Scenario.busy_uow 1 Scenario.boom (Ok ()) (store Scenario.busy_uow)
       (store Scenario.busy_uow) _ _ _)); reflexivity.
Defined.

(** X9. [get] returns what the repository found, also when that is
    nothing ([undefined] is not an error), after one commit and with one
    open and one close. *)
Theorem X9_get_returns_lookup
    (K : UnitOfWorkClass) (u : UnitOfWork) (id : string) (batchIdentifier : option string)
    (found : option DomainRef) (σ1 σ2 : Store) :
  has_repo K = true →
  repo_get K id batchIdentifier (store u) = (Promise (Ok found), σ1) →
  _commit K σ1 = (Ok (), σ2) →
  IUnitOfWork.get K id batchIdentifier u
    = (Ok found, {| _events := _events u; store := σ2 |},
       [ObsSetDbSession; ObsRepoGet id batchIdentifier; ObsCommit; ObsCloseDbSession]).
Proof.
  intros Hrepo Hget Hc.
  run_uow Hrepo. rewrite Hget. simpl. rewrite Hc. reflexivity.
Qed.

Lemma X9_get_returns_lookup_witness :
  IUnitOfWork.get Scenario.memory_uow "job-9" None Scenario.fresh_uow
    = (Ok None, Scenario.fresh_uow,
       [ObsSetDbSession; ObsRepoGet "job-9" None; ObsCommit; ObsCloseDbSession]).
Proof.
  apply (X9_get_returns_lookup Scenario.memory_uow Scenario.fresh_uow "job-9" None None
           (store Scenario.fresh_uow) (store Scenario.fresh_uow)); reflexivity.
Defined.

(** X12. [get] harvests nothing: whether it returns or throws, and
    whatever the repository and the hooks do, [_events] is as before. *)
Theorem X12_get_never_harvests (K : UnitOfWorkClass) (u : UnitOfWork)
    (id : string) (batchIdentifier : option string) :
  _events (state_of (IUnitOfWork.get K id batchIdentifier u)) = _events u.
Proof.
  unfold state_of. destruct (has_repo K) eqn:Hrepo; run_uow Hrepo; [|done].
  destruct (repo_get K id batchIdentifier (store u)) as [[v|[d|v]] σ]; simpl;
    repeat (
      match goal with
      | |- context [_rollback ?K ?σ] => destruct (_rollback K σ) as [[[]|?] ?]
      | |- context [_commit ?K ?σ] => destruct (_commit K σ) as [[[]|?] ?]
      | |- context [is_truthy ?e] => destruct (is_truthy e)
      end; simpl); reflexivity.
Qed.

(** ** Aggregates *)

(** X10. On an existing aggregate, [addEvent] appends to that
    aggregate's buffer and to no other, [seen] is not affected, and
    [clearEvents] empties the buffer again. *)
Theorem X10_addEvent_appends
    (d : DomainRef) (event : Message) (σ : Store) (b : list Message) :
  buffers σ !! d = Some b →
  IDomain.events d (IDomain.addEvent d event σ) = b ++ [event]
  ∧ (∀ d', d' ≠ d →
       IDomain.events d' (IDomain.addEvent d event σ) = IDomain.events d' σ)
  ∧ seen (IDomain.addEvent d event σ) = seen σ
  ∧ IDomain.events d (IDomain.clearEvents d (IDomain.addEvent d event σ)) = [].
Proof.
  intros Hb. unfold IDomain.addEvent, IDomain.clearEvents. repeat split.
  - unfold IDomain.events, IDomain.set_events. simpl.
    rewrite lookup_alter_eq, Hb. done.
  - intros d' Hne. by apply events_set_events_ne.
  - apply events_set_events_eq.
Qed.

Lemma X10_addEvent_appends_witness :
  IDomain.events 1 (IDomain.addEvent 1 Scenario.Done (store Scenario.fresh_uow))
    = [Scenario.XCreated] ++ [Scenario.Done].
Proof.
  apply (X10_addEvent_appends 1 Scenario.Done (store Scenario.fresh_uow) [Scenario.XCreated]).
  reflexivity.
Defined.

Lemma flat_map_single {A B} `{EqDecision A} (f : A → list B) (l : list A) (a : A) :
  NoDup l → a ∈ l → (∀ x, x ∈ l → x ≠ a → f x = []) → flat_map f l = f a.
Proof.
  induction l as [|x l IH]; intros Hnd Ha Hf; [by apply elem_of_nil in Ha|].
  apply NoDup_cons in Hnd as [Hx Hnd]. simpl.
  apply elem_of_cons in Ha as [->|Ha].
  - assert (flat_map f l = []) as ->; [|by rewrite app_nil_r].
    clear IH Hnd. induction l as [|y l IHl]; [done|]. simpl.
    rewrite Hf; [|by right; left|]; [|intros ->; apply Hx; left].
    apply IHl; [set_solver|]. intros z Hz Hne. apply Hf; [|done].
    apply elem_of_cons in Hz as [->|Hz]; [left|right; by right].
  - rewrite Hf; [|left|intros ->; done]. simpl.
    apply IH; [done..|]. intros z Hz Hne. apply Hf; [by right|done].
Qed.

(** X11. An event pushed with [addEvent] on a seen aggregate, when
    nothing else is pending, is what the next [collectNewEvents] adds:
    the call returns the list harvested so far followed by that event. *)
Theorem X11_pushed_event_is_harvested
    (K : UnitOfWorkClass) (u : UnitOfWork) (d : DomainRef) (event : Message) :
  has_repo K = true →
  NoDup (seen (store u)) →
  d ∈ seen (store u) →
  buffers (store u) !! d = Some [] →
  (∀ d', d' ∈ seen (store u) → IDomain.events d' (store u) = []) →
  result_of
    (IUnitOfWork.collectNewEvents K
       {| _events := _events u; store := IDomain.addEvent d event (store u) |})
  = Ok (_events u ++ [event]).
Proof.
  intros Hrepo Hnd Hd Hb Hidle.
  set (u1 := {| _events := _events u; store := IDomain.addEvent d event (store u) |}).
  assert (Hev : IDomain.events d (store u1) = [event]).
  { unfold u1, IDomain.addEvent, IDomain.events, IDomain.set_events. simpl.
    by rewrite lookup_alter_eq, Hb. }
  assert (Hother : ∀ x, x ∈ seen (store u) → x ≠ d → IDomain.events x (store u1) = []).
  { intros x Hx Hne. unfold u1, IDomain.addEvent. simpl.
    rewrite events_set_events_ne by done. by apply Hidle. }
  destruct (drain_list_spec (seen (store u1)) u1 Hnd) as (He & _).
  unfold result_of, IUnitOfWork.collectNewEvents. rewrite Hrepo.
  unfold bind, modify, gets, IUnitOfWork.drain_seen. simpl.
  change (seen (store u1)) with (seen (store u)) in He.
  rewrite He, (flat_map_single _ _ d Hnd Hd Hother), Hev. reflexivity.
Qed.

Lemma X11_pushed_event_is_harvested_witness :
  result_of
    (IUnitOfWork.collectNewEvents Scenario.memory_uow
       {| _events := [Scenario.XCreated];
          store := IDomain.addEvent 1 Scenario.Done
                     {| seen := [1; 2]; buffers := {[ 1 := []; 2 := [] ]} |} |})
  = Ok ([Scenario.XCreated] ++ [Scenario.Done]).
Proof.
  apply (X11_pushed_event_is_harvested Scenario.memory_uow
           {| _events := [Scenario.XCreated];
              store := {| seen := [1; 2]; buffers := {[ 1 := []; 2 := [] ]} |} |}
           1 Scenario.Done).
  - reflexivity.
  - exact (bool_decide_unpack (NoDup [1; 2]) I).
  - exact (bool_decide_unpack (1 ∈ [1; 2]) I).
  - reflexivity.
  - intros d' Hd'. simpl in Hd'.
    apply elem_of_cons in Hd' as [->|Hd']; [reflexivity|].
    apply elem_of_cons in Hd' as [->|Hd']; [reflexivity|].
    by apply elem_of_nil in Hd'.
Defined.

(** ** The handler template: further behaviour *)

(** X13. With a Unit of Work and its repository attached, one [handle]
    call opens the storage session exactly once more than its [_handle]
    does, on every path. *)
Theorem X13_handle_opens_once_on_top
    (C : HandlerClass) (K : UnitOfWorkClass) (m : Message) (h : Handler) :
  uow_class C = Some K →
  has_repo K = true →
  tally is_set (trace_of (IHandler.handle C m h))
    = tally is_set (trace_of (_handle C m h)) + 1.
Proof.
  intros Huow Hrepo.
  destruct (handle_uow_trace C K m h Huow Hrepo) as (mid & Ht & Hmid).
  rewrite Ht, tally_cons, !tally_app. simpl.
  assert (tally is_set mid = 0) as ->.
  { destruct (result_of _); [|destruct Hmid]; subst mid; reflexivity. }
  unfold tally. simpl. lia.
Qed.

Lemma X13_handle_opens_once_on_top_witness :
  tally is_set
    (trace_of (IHandler.handle Scenario.CreateXHandler (Command "CreateX" "job-1")
                 Scenario.fresh_handler))
  = tally is_set
      (trace_of (_handle Scenario.CreateXHandler (Command "CreateX" "job-1")
                   Scenario.fresh_handler)) + 1.
Proof.
  apply (X13_handle_opens_once_on_top Scenario.CreateXHandler Scenario.memory_uow);
    reflexivity.
Defined.

(** X14. A handler without a Unit of Work whose [_handle] throws: the
    same error is rethrown after exactly one log line under the handler's
    name, nothing else is done, and whatever [_handle] changed before
    throwing (messages it had added included) stays in the instance. *)
Theorem X14_plain_handler_failure
    (C : HandlerClass) (m : Message) (h h1 : Handler) (e : JsValue) (t1 : list Obs) :
  uow_class C = None →
  _handle C m h = (Throw e, h1, t1) →
  IHandler.handle C m h
    = (Throw e, h1, t1 ++ [ObsLogError (class_name C) (error_text e)]).
Proof.
  intros Huow Hh. run_handler Huow Huow. rewrite Hh. reflexivity.
Qed.

Lemma X14_plain_handler_failure_witness :
  IHandler.handle Cases.HalfwayHandler Scenario.Step Scenario.fresh_handler
    = (Throw Scenario.boom,
       {| _return_messages := [Scenario.Done]; uow := Scenario.fresh_uow |},
       [] ++ [ObsLogError "HalfwayHandler" "boom"]).
Proof.
  apply (X14_plain_handler_failure Cases.HalfwayHandler Scenario.Step
           Scenario.fresh_handler); reflexivity.
Defined.

(** X15. A handler without a Unit of Work whose [_handle] returns:
    [handle] returns the instance's list as [_handle] left it, with the
    trace and state of [_handle] and nothing more (no session, no commit,
    no log). *)
Theorem X15_plain_handler_success
    (C : HandlerClass) (m : Message) (h h1 : Handler) (t1 : list Obs) :
  uow_class C = None →
  _handle C m h = (Ok (), h1, t1) →
  IHandler.handle C m h = (Ok (_return_messages h1), h1, t1).
Proof.
  intros Huow Hh. run_handler Huow Huow. rewrite Hh. simpl. by rewrite app_nil_r.
Qed.

Lemma X15_plain_handler_success_witness :
  IHandler.handle Scenario.StepHandler Scenario.Step Scenario.fresh_handler
    = (Ok [Scenario.Done],
       {| _return_messages := [Scenario.Done]; uow := Scenario.fresh_uow |}, []).
Proof.
  apply (X15_plain_handler_success Scenario.StepHandler Scenario.Step
           Scenario.fresh_handler
           {| _return_messages := [Scenario.Done]; uow := Scenario.fresh_uow |} []);
    reflexivity.
Defined.

(** X16. A handler whose Unit of Work has no repository fails in
    [enter], outside the [try] block: [handle] throws a [TypeError],
    [_handle] never runs, nothing is logged and the instance is
    unchanged. *)
Theorem X16_handler_without_repository
    (C : HandlerClass) (K : UnitOfWorkClass) (m : Message) (h : Handler) :
  uow_class C = Some K →
  has_repo K = false →
  IHandler.handle C m h = (Throw IUnitOfWork.type_error, h, []).
Proof.
  intros Huow Hrepo. destruct h as [rm u]. run_handler Huow Hrepo. reflexivity.
Qed.

Lemma X16_handler_without_repository_witness :
  IHandler.handle Cases.DetachedHandler Scenario.Step Scenario.fresh_handler
    = (Throw IUnitOfWork.type_error, Scenario.fresh_handler, []).
Proof.
  apply (X16_handler_without_repository Cases.DetachedHandler Cases.detached_uow);
    reflexivity.
Defined.



(** ** The bus: further behaviour *)

Ltac bus_step :=
  unfold MessageBus.dispatch, MessageBus.handleCommand, MessageBus.handleEvent,
    MessageBus.isCommand, MessageBus.isEvent, constructor_name,
    MessageBus.push, MessageBus.in_world, bind, ret, throw, modify;
  cbv beta iota zeta.

Section BusFurther.
Context {W : Type} (B : MessageBus.Wiring W).
Import MessageBus.

(** X18. A message that is neither a command nor an event makes the run
    reject with [<message> was not a Command or Event]; no handler runs
    and what is queued behind it is not processed. *)
Theorem X18_plain_message_rejects
    (fuel : nat) (n : string) (rest : list Message) (w : W) :
  loop B (S fuel) {| queue := Plain n :: rest; world := w |}
    = {| completion :=
           Rejected (JsError "Error"
                       (message_text B (Plain n) +:+ " was not a Command or Event"));
         final := {| queue := rest; world := w |};
         trace := [];
         processed := [Plain n] |}.
Proof. reflexivity. Qed.

(** X19. When the handler resolved for the head message throws, the run
    rejects with that same error at once: the rest of the queue is left
    unprocessed, and the world stays as the failing handler left it. *)
Theorem X19_handler_error_aborts_chain
    (fuel : nat) (m : Message) (rest : list Message) (w w1 : W)
    (h : HandlerRef W) (e : JsValue) (t1 : list Obs) :
  resolve B m = Some h →
  h m w = (Throw e, w1, t1) →
  loop B (S fuel) {| queue := m :: rest; world := w |}
    = {| completion := Rejected e;
         final := {| queue := rest; world := w1 |};
         trace := t1;
         processed := [m] |}.
Proof.
  intros Hres Hh. destruct m as [n j|n d err|n]; unfold resolve in Hres; [| |done].
  - simpl. bus_step. rewrite Hres. simpl. rewrite Hh. reflexivity.
  - simpl. bus_step. rewrite Hres. simpl. rewrite Hh. reflexivity.
Qed.

(** X20. A run that resolves has emptied the queue, and it took at most
    as many messages off the queue as it was allowed iterations. *)
Theorem X20_resolved_run_drains_queue (fuel : nat) (b : Bus W) :
  completion (loop B fuel b) = Resolved →
  queue (final (loop B fuel b)) = []
  ∧ (List.length (processed (loop B fuel b)) ≤ fuel)%nat.
Proof.
  revert b. induction fuel as [|fuel IH]; intros [q w]; simpl.
  - destruct q as [|m rest]; simpl; [done | discriminate].
  - destruct q as [|m rest]; simpl; [split; [done | lia]|].
    destruct (dispatch B m _) as [[[[]|v] b1] t1]; simpl; [|discriminate].
    intros Hc. destruct (IH b1 Hc) as [Hq Hlen]. split; [done | lia].
Qed.

(** X21. A message whose handler answers with events nobody handles: the
    chain resolves after the handler's work, having processed the message
    and then each returned event, in order. *)
Theorem X21_chain_with_unhandled_events_resolves
    (fuel : nat) (m : Message) (b : Bus W)
    (h : HandlerRef W) (ms : list Message) (w1 : W) (t1 : list Obs) :
  resolve B m = Some h →
  h m (world b) = (Ok ms, w1, t1) →
  Forall (unhandled_event B) ms →
  (List.length ms ≤ fuel)%nat →
  handle B (S fuel) m b
    = {| completion := Resolved;
         final := {| queue := []; world := w1 |};
         trace := t1;
         processed := m :: ms |}.
Proof.
  intros Hres Hh Hall Hlen. unfold handle. simpl.
  rewrite (dispatch_resolved B m h [] (world b) ms w1 t1 Hres Hh). simpl.
  rewrite (loop_unhandled_events B ms fuel w1 Hall Hlen). simpl.
  by rewrite app_nil_r.
Qed.

End BusFurther.

Lemma X19_handler_error_aborts_chain_witness :
  MessageBus.loop Cases.wiring 5
    {| MessageBus.queue := [Command "Crash" "job-1"; Command "Start" "job-1"];
       MessageBus.world := (Scenario.fresh_handler, Scenario.fresh_handler) |}
  = {| MessageBus.completion := MessageBus.Rejected Scenario.boom;
       MessageBus.final :=
         {| MessageBus.queue := [Command "Start" "job-1"];
            MessageBus.world :=
              ({| _return_messages := [Scenario.Done]; uow := Scenario.fresh_uow |},
               Scenario.fresh_handler) |};
       MessageBus.trace := [ObsLogError "HalfwayHandler" "boom"];
       MessageBus.processed := [Command "Crash" "job-1"] |}.
Proof.
  apply (X19_handler_error_aborts_chain Cases.wiring 4 (Command "Crash" "job-1")
           [Command "Start" "job-1"] (Scenario.fresh_handler, Scenario.fresh_handler)
           ({| _return_messages := [Scenario.Done]; uow := Scenario.fresh_uow |},
            Scenario.fresh_handler)
           (λ m, Scenario.first (IHandler.handle Cases.HalfwayHandler m))
           Scenario.boom [ObsLogError "HalfwayHandler" "boom"]); reflexivity.
Defined.

Lemma X20_resolved_run_drains_queue_witness :
  MessageBus.queue
    (MessageBus.final
       (MessageBus.loop Scenario.wiring 10
          {| MessageBus.queue := [Command "Start" "job-1"];
             MessageBus.world := (Scenario.fresh_handler, Scenario.fresh_handler) |}))
  = [].
Proof.
  refine (proj1
    (X20_resolved_run_drains_queue Scenario.wiring 10
       {| MessageBus.queue := [Command "Start" "job-1"];
          MessageBus.world := (Scenario.fresh_handler, Scenario.fresh_handler) |} _)).
  reflexivity.
Defined.

Lemma X21_chain_with_unhandled_events_resolves_witness :
  MessageBus.handle Cases.wiring 3 (Command "Start" "job-1") Scenario.fresh_bus
  = {| MessageBus.completion := MessageBus.Resolved;
       MessageBus.final :=
         {| MessageBus.queue := [];
            MessageBus.world :=
              (Scenario.fresh_handler,
               {| _return_messages := [Scenario.Done]; uow := Scenario.fresh_uow |}) |};
       MessageBus.trace := [];
       MessageBus.processed := [Command "Start" "job-1"; Scenario.Done] |}.
Proof.
  apply (X21_chain_with_unhandled_events_resolves Cases.wiring 2 (Command "Start" "job-1")
           Scenario.fresh_bus
           (λ m, Scenario.second (IHandler.handle Scenario.StepHandler m))
           [Scenario.Done]
           (Scenario.fresh_handler,
            {| _return_messages := [Scenario.Done]; uow := Scenario.fresh_uow |})
           []).
  - reflexivity.
  - reflexivity.
  - repeat constructor.
  - simpl. lia.
Defined.

(** ** The entry points *)

Section LambdaProperties.
Context {W Input Request : Type} (config : LambdaEntry.LambdaConfig W Input Request).
Import LambdaEntry.

(** X22. When [validate] reports errors, the Lambda handler answers 400
    with the errors joined by a comma and a space after [Validation
    failed: ], echoes the raw event's job identifier, logs the failure,
    and never creates a request or touches the bus. *)
Theorem X22_lambda_validation_failure
    (fuel : nat) (event : Input) (awsRequestId : string) (b : MessageBus.Bus W)
    (validationErrors : list string) :
  validate config event = Ok validationErrors →
  validationErrors ≠ [] →
  handler config fuel event awsRequestId b
    = {| response :=
           Some {| statusCode := 400;
                   error := Some ("Validation failed: "
                                  +:+ String.concat ", " validationErrors);
                   external_job_id := event_job_id config event;
                   message := "Request validation failed";
                   requestId := awsRequestId |};
         bus_after := b;
         bus_trace := [];
         log := [InfoProcessing awsRequestId event;
                 ErrorValidation awsRequestId validationErrors event] |}.
Proof.
  intros Hv Hne. unfold handler. rewrite Hv.
  destruct validationErrors as [|x l]; [done|]. reflexivity.
Qed.

(** X23. The Lambda handler answers 200 exactly when validation finds
    nothing, the request and the command are created, and the bus run
    resolves. *)
Theorem X23_lambda_success_iff
    (fuel : nat) (event : Input) (awsRequestId : string) (b : MessageBus.Bus W) :
  (∃ r, response (handler config fuel event awsRequestId b) = Some r
        ∧ statusCode r = 200)
  ↔ validate config event = Ok []
    ∧ ∃ request command,
        create config event = Ok request
        ∧ createCommand config request = Ok command
        ∧ MessageBus.completion (MessageBus.handle (messageBus config) fuel command b)
          = MessageBus.Resolved.
Proof.
  unfold handler. cbv zeta. split.
  - destruct (validate config event) as [[|x l]|v];
      [| intros (r & [= <-] & Hs); discriminate Hs
       | intros (r & [= <-] & Hs); discriminate Hs].
    destruct (create config event) as [request|v];
      [| intros (r & [= <-] & Hs); discriminate Hs].
    destruct (createCommand config request) as [command|v] eqn:Hcmd;
      [| intros (r & [= <-] & Hs); discriminate Hs].
    destruct (MessageBus.completion (MessageBus.handle (messageBus config) fuel command b))
      eqn:Hrun; intros (r & Hr & Hs); simpl in Hr.
    + split; [done|]. exists request, command. repeat split; done.
    + injection Hr as <-. discriminate Hs.
    + discriminate Hr.
  - intros (Hv & request & command & Hc & Hcmd & Hrun).
    rewrite Hv. simpl. rewrite Hc, Hcmd, Hrun. eauto.
Qed.

(** X24. Whenever the Lambda handler answers, the answer carries the
    invocation's request identifier and its status is 200, 400 or 500.  A
    500 answer echoes the raw event's job identifier and reports the value
    that was caught: the one thrown by [validate], or (validation having
    found nothing) by [create], by [createCommand], or the one the bus run
    rejected with; its message if it is an [Error], [Unknown error]
    otherwise. *)
Theorem X24_lambda_statuses
    (fuel : nat) (event : Input) (awsRequestId : string) (b : MessageBus.Bus W)
    (r : LambdaResponse) :
  response (handler config fuel event awsRequestId b) = Some r →
  requestId r = awsRequestId
  ∧ (statusCode r = 200
     ∨ statusCode r = 400
     ∨ statusCode r = 500
       ∧ external_job_id r = event_job_id config event
       ∧ ∃ v,
           error r = Some (reported_message v)
           ∧ (validate config event = Throw v
              ∨ validate config event = Ok []
                ∧ (create config event = Throw v
                   ∨ ∃ request,
                       create config event = Ok request
                       ∧ (createCommand config request = Throw v
                          ∨ ∃ command,
                              createCommand config request = Ok command
                              ∧ MessageBus.completion
                                  (MessageBus.handle (messageBus config) fuel command b)
                                = MessageBus.Rejected v)))).
Proof.
  unfold handler. cbv zeta.
  destruct (validate config event) as [[|x l]|v];
    [| intros [= <-]; split; [done | by right; left]
     | intros [= <-]; split; [done|]; right; right;
       repeat split; exists v; split; [done | by left] ].
  destruct (create config event) as [request|v];
    [| intros [= <-]; split; [done|]; right; right;
       repeat split; exists v; split; [done|]; right; split; [done | by left] ].
  destruct (createCommand config request) as [command|v] eqn:Hcmd;
    [| intros [= <-]; split; [done|]; right; right;
       repeat split; exists v; split; [done|]; right; split; [done|];
       right; exists request; split; [done | by left] ].
  destruct (MessageBus.completion (MessageBus.handle (messageBus config) fuel command b))
    as [|v|] eqn:Hrun; simpl.
  - intros [= <-]. split; [done | by left].
  - intros [= <-]. split; [done|]. right; right.
    repeat split. exists v. split; [done|]. right. split; [done|].
    right. exists request. split; [done|]. right. exists command. by split.
  - discriminate.
Qed.

(** X25. A request whose command has no registered handler gets a 500
    answer carrying the bus's routing error; no handler has run. *)
Theorem X25_lambda_unrouted_command
    (fuel : nat) (event : Input) (awsRequestId : string) (b : MessageBus.Bus W)
    (request : Request) (name job : string) :
  validate config event = Ok [] →
  create config event = Ok request →
  createCommand config request = Ok (Command name job) →
  MessageBus.commandHandlers (messageBus config) !! name = None →
  response (handler config (S fuel) event awsRequestId b)
    = Some {| statusCode := 500;
              error := Some ("No handler found for command: " +:+ name);
              external_job_id := event_job_id config event;
              message := "Request processing failed";
              requestId := awsRequestId |}
  ∧ bus_trace (handler config (S fuel) event awsRequestId b) = []
  ∧ MessageBus.world (bus_after (handler config (S fuel) event awsRequestId b))
    = MessageBus.world b.
Proof.
  intros Hv Hc Hcmd Hnone. unfold handler. rewrite Hv. simpl. rewrite Hc, Hcmd.
  unfold MessageBus.handle. simpl. bus_step. rewrite Hnone. simpl. done.
Qed.

End LambdaProperties.

Lemma X22_lambda_validation_failure_witness :
  LambdaEntry.statusCode
    <$> LambdaEntry.response
          (LambdaEntry.handler (Cases.lambda_config "Start") 10 None "req-1"
             Scenario.fresh_bus)
  = Some 400.
Proof.
  refine (f_equal (λ i, LambdaEntry.statusCode <$> LambdaEntry.response i)
    (X22_lambda_validation_failure (Cases.lambda_config "Start") 10 None "req-1"
       Scenario.fresh_bus ["external_job_id is required"; "payload is required"] _ _)).
  - reflexivity.
  - discriminate.
Defined.

Lemma X24_lambda_statuses_witness :
  LambdaEntry.requestId Cases.unknown_error_response = "req-1"
  ∧ (LambdaEntry.statusCode Cases.unknown_error_response = 200
     ∨ LambdaEntry.statusCode Cases.unknown_error_response = 400
     ∨ LambdaEntry.statusCode Cases.unknown_error_response = 500
       ∧ LambdaEntry.external_job_id Cases.unknown_error_response
         = LambdaEntry.event_job_id Cases.lenient_lambda_config None
       ∧ ∃ v,
           LambdaEntry.error Cases.unknown_error_response = Some (reported_message v)
           ∧ (LambdaEntry.validate Cases.lenient_lambda_config None = Throw v
              ∨ LambdaEntry.validate Cases.lenient_lambda_config None = Ok []
                ∧ (LambdaEntry.create Cases.lenient_lambda_config None = Throw v
                   ∨ ∃ request,
                       LambdaEntry.create Cases.lenient_lambda_config None = Ok request
                       ∧ (LambdaEntry.createCommand Cases.lenient_lambda_config request
                          = Throw v
                          ∨ ∃ command,
                              LambdaEntry.createCommand Cases.lenient_lambda_config request
                              = Ok command
                              ∧ MessageBus.completion
                                  (MessageBus.handle
                                     (LambdaEntry.messageBus Cases.lenient_lambda_config)
                                     10 command Scenario.fresh_bus)
                                = MessageBus.Rejected v)))).
Proof.
  apply (X24_lambda_statuses Cases.lenient_lambda_config 10 None "req-1"
           Scenario.fresh_bus Cases.unknown_error_response).
  reflexivity.
Defined.

Lemma X25_lambda_unrouted_command_witness :
  LambdaEntry.response
    (LambdaEntry.handler (Cases.lambda_config "Missing") 1 (Some "job-1") "req-1"
       Scenario.fresh_bus)
  = Some {| LambdaEntry.statusCode := 500;
            LambdaEntry.error := Some "No handler found for command: Missing";
            LambdaEntry.external_job_id := Some "job-1";
            LambdaEntry.message := "Request processing failed";
            LambdaEntry.requestId := "req-1" |}.
Proof.
  refine (proj1
    (X25_lambda_unrouted_command (Cases.lambda_config "Missing") 0 (Some "job-1") "req-1"
       Scenario.fresh_bus "job-1" "Missing" "job-1" _ _ _ _)); reflexivity.
Defined.

Section ApiProperties.
Context {W Input Request : Type} (config : ApiEntry.ApiConfig W Input Request).
Import ApiEntry.

(** X26. When [validate] reports errors, the POST endpoint answers 400
    with those errors as [details]; the bus is not touched and nothing is
    printed. *)
Theorem X26_api_validation_failure
    (fuel : nat) (body : Input) (b : MessageBus.Bus W) (validationErrors : list string) :
  validate config body = Ok validationErrors →
  validationErrors ≠ [] →
  post config fuel (Ok body) b
    = {| response := Some (ValidationFailed validationErrors, 400);
         bus_after := b; bus_trace := []; printed := [] |}.
Proof.
  intros Hv Hne. unfold post. rewrite Hv.
  destruct validationErrors as [|x l]; [done|]. reflexivity.
Qed.

(** X27. The POST endpoint answers 200 exactly when the body parses,
    validation finds nothing, the request and the command are created and
    the bus run resolves; the answer then carries the request's job
    identifier. *)
Theorem X27_api_success_iff
    (fuel : nat) (json : Outcome Input) (b : MessageBus.Bus W) (answer : Body) :
  response (post config fuel json b) = Some (answer, 200)
  ↔ ∃ body request command,
      json = Ok body
      ∧ validate config body = Ok []
      ∧ create config body = Ok request
      ∧ createCommand config request = Ok command
      ∧ MessageBus.completion (MessageBus.handle (messageBus config) fuel command b)
        = MessageBus.Resolved
      ∧ answer = Completed (request_job_id config request).
Proof.
  unfold post. cbv zeta. split.
  - destruct json as [body|v]; [|discriminate].
    destruct (validate config body) as [[|x l]|v] eqn:Hv; try discriminate.
    destruct (create config body) as [request|v] eqn:Hc; [|discriminate].
    destruct (createCommand config request) as [command|v] eqn:Hcmd; [|discriminate].
    destruct (MessageBus.completion (MessageBus.handle (messageBus config) fuel command b))
      eqn:Hrun; simpl; try discriminate.
    intros [= <-]. exists body, request, command. repeat split; done.
  - intros (body & request & command & -> & Hv & Hc & Hcmd & Hrun & ->).
    rewrite Hv. simpl. rewrite Hc, Hcmd, Hrun. reflexivity.
Qed.

(** X28. When the handler of the request's command throws, the POST
    endpoint prints the thrown value and answers 500 with its message, or
    with [Unknown error] when it is not an [Error]; the world of the
    handlers is left as the failing handler left it, and the trace is that
    handler's. *)
Theorem X28_api_handler_failure
    (fuel : nat) (body : Input) (b : MessageBus.Bus W)
    (request : Request) (command : Message)
    (h : MessageBus.HandlerRef W) (v : JsValue) (w1 : W) (t1 : list Obs) :
  validate config body = Ok [] →
  create config body = Ok request →
  createCommand config request = Ok command →
  MessageBus.resolve (messageBus config) command = Some h →
  h command (MessageBus.world b) = (Throw v, w1, t1) →
  post config (S fuel) (Ok body) b
    = {| response := Some (InternalError (reported_message v), 500);
         bus_after := {| MessageBus.queue := []; MessageBus.world := w1 |};
         bus_trace := t1;
         printed := [v] |}.
Proof.
  intros Hv Hc Hcmd Hres Hh. unfold post. rewrite Hv. simpl. rewrite Hc, Hcmd.
  unfold MessageBus.handle.
  destruct command as [n j|n d err|n]; unfold MessageBus.resolve in Hres; [| |done].
  - simpl. bus_step. rewrite Hres. simpl. rewrite Hh. reflexivity.
  - simpl. bus_step. rewrite Hres. simpl. rewrite Hh. reflexivity.
Qed.

End ApiProperties.

Lemma X26_api_validation_failure_witness :
  ApiEntry.response (ApiEntry.post (Cases.api_config "Start") 10 (Ok None) Scenario.fresh_bus)
  = Some (ApiEntry.ValidationFailed
            ["external_job_id is required"; "payload is required"], 400).
Proof.
  refine (f_equal ApiEntry.response
    (X26_api_validation_failure (Cases.api_config "Start") 10 None Scenario.fresh_bus
       ["external_job_id is required"; "payload is required"] _ _)).
  - reflexivity.
  - discriminate.
Defined.

Lemma X28_api_handler_failure_witness :
  ApiEntry.post Cases.crash_api_config 1 (Ok (Some "job-1")) Scenario.fresh_bus
  = {| ApiEntry.response := Some (ApiEntry.InternalError "boom", 500);
       ApiEntry.bus_after :=
         {| MessageBus.queue := [];
            MessageBus.world :=
              ({| _return_messages := [Scenario.Done]; uow := Scenario.fresh_uow |},
               Scenario.fresh_handler) |};
       ApiEntry.bus_trace := [ObsLogError "HalfwayHandler" "boom"];
       ApiEntry.printed := [Scenario.boom] |}.
Proof.
  apply (X28_api_handler_failure Cases.crash_api_config 0 (Some "job-1")
           Scenario.fresh_bus "job-1" (Command "Crash" "job-1")
           (λ m, Scenario.first (IHandler.handle Cases.HalfwayHandler m))
           Scenario.boom
           ({| _return_messages := [Scenario.Done]; uow := Scenario.fresh_uow |},
            Scenario.fresh_handler)
           [ObsLogError "HalfwayHandler" "boom"]); reflexivity.
Defined.
